(** * Verification of the finances dashboards

    Shallow embedding of the two computation units of the repository:

    - [Projection]: the growth projection of [portfolio_simulator2.py]
      ([update_projection]);
    - [Vibes]: the VIBES scorer of [vibes_dashboard.py]
      ([get_breadth_factor], [get_sentiment_scores], [calculate_vibes],
      [update_dashboard]).

    Numbers.  Python [float]s are modelled by exact rationals ([Q]) extended
    with a not-a-number value where the code can produce or test one
    ([PyNum.pyfloat]); binary rounding and the infinities are not modelled.
    Equality of rationals is [Qeq] ([==]), lifted to [PyNum.feq].
    [round(x, 2)] is round-half-even on the exact value; where the exact
    value lies on a decimal tie (half a cent), the binary value the code
    rounds may lie on either side of it, so the general properties of the
    projection state a shown cell as the rounding of the carried value, or
    bound it.

    Providers.  The network and library calls ([yfinance], [requests],
    [BeautifulSoup]) are inputs of the model: what each one hands back, or
    the fact that it raised, is a value of a provider type ([Vibes.providers]).

    Strings.  Tickers and headlines are ASCII; [str.upper] and [str.lower]
    act on the letters [a-z] and [A-Z]. *)

From stdpp Require Import gmap strings list.
From Stdlib Require Import Ascii ZArith QArith Qround Qabs Qpower Lia Lqa.

Local Open Scope Z_scope.

(* ===================================================================== *)
(** * Python numbers *)
(* ===================================================================== *)

Module PyNum.

Local Open Scope Q_scope.

(** A Python/NumPy float: a finite value or NaN. *)
Inductive pyfloat : Type :=
| Fin (q : Q)
| NaN.

Definition of_Z (z : Z) : pyfloat := Fin (inject_Z z).

Definition isnan (x : pyfloat) : bool :=
  match x with NaN => true | Fin _ => false end.

Definition fadd (x y : pyfloat) : pyfloat :=
  match x, y with
  | Fin a, Fin b => Fin (a + b)
  | _, _ => NaN
  end.

Definition fmul (x y : pyfloat) : pyfloat :=
  match x, y with
  | Fin a, Fin b => Fin (a * b)
  | _, _ => NaN
  end.

(** Division.  The only divisor of the program that can be zero is a
    [Close] price (NumPy then yields an infinity or NaN); a zero divisor is
    mapped to NaN here and lies outside the range where the model is
    faithful. *)
Definition fdiv (x y : pyfloat) : pyfloat :=
  match x, y with
  | Fin a, Fin b => if Qeq_bool b 0 then NaN else Fin (a / b)
  | _, _ => NaN
  end.

(** [x < y]; every comparison with NaN is false. *)
Definition flt (x y : pyfloat) : bool :=
  match x, y with
  | Fin a, Fin b => match Qcompare a b with Lt => true | _ => false end
  | _, _ => false
  end.

(** Python's two-argument [min(a, b)]: [a] unless [b < a]. *)
Definition py_min (a b : pyfloat) : pyfloat := if flt b a then b else a.

(** Python's two-argument [max(a, b)]: [a] unless [b > a]. *)
Definition py_max (a b : pyfloat) : pyfloat := if flt a b then b else a.

(** Sameness of two float values: rationals up to [Qeq], NaN with NaN. *)
Definition feq (x y : pyfloat) : Prop :=
  match x, y with
  | Fin a, Fin b => a == b
  | NaN, NaN => True
  | _, _ => False
  end.

(** The value lies in the unit interval [[0,1]] (NaN does not). *)
Definition in_unit (x : pyfloat) : Prop :=
  match x with
  | Fin q => 0 <= q <= 1
  | NaN => False
  end.

(** Python's [sum(xs)] (left to right, starting from [0]). *)
Definition py_sum (xs : list pyfloat) : pyfloat :=
  fold_left fadd xs (Fin 0).

(** Arithmetic mean, [sum(xs) / len(xs)] (NaN on the empty list, as
    [Series.mean] gives). *)
Definition mean (xs : list pyfloat) : pyfloat :=
  fdiv (py_sum xs) (of_Z (Z.of_nat (length xs))).

(** Round half to even to an integer. *)
Definition round_half_even (q : Q) : Z :=
  let f := Qfloor q in
  match Qcompare (q - inject_Z f)%Q (1 # 2)%Q with
  | Lt => f
  | Gt => (f + 1)%Z
  | Eq => if Z.even f then f else (f + 1)%Z
  end.

(** Python's [round(x, 2)] on the exact value of [x]. *)
Definition round2 (q : Q) : Q := inject_Z (round_half_even (q * 100)) / 100.

End PyNum.

(* ===================================================================== *)
(** * Growth projector ([portfolio_simulator2.py]) *)
(* ===================================================================== *)

Module Projection.

Import PyNum.
Local Open Scope Q_scope.

(** One entry of [records]: the dict appended at each iteration. *)
Record row : Type := mkRow {
  Year : Z;
  Base_Salary : Q;
  Monthly_Investment : Q;
  Annual_Contribution : Q;
  After_Tax_Bonus : Q;
  Total_Invested : Q;
  Portfolio_Value : Q
}.

(** The variables the loop of [update_projection] carries. *)
Record loop_state : Type := mkState {
  salary : Q;
  portfolio_value : Q;
  monthly_investment : Q;
  records : list row
}.

(** [range(lo, hi)]. *)
Definition py_range (lo hi : Z) : list Z :=
  List.map (fun i => (lo + Z.of_nat i)%Z) (seq 0 (Z.to_nat (hi - lo))).

Section Inputs.

Variables (base_salary bonus_pct bonus_tax raise_pct : Q).
Variables (monthly_investment0 growth_rate : Q).

(** State before the loop. *)
Definition init_state : loop_state :=
  {| salary := base_salary;
     portfolio_value := 0;
     monthly_investment := monthly_investment0;
     records := [] |}.

(** Body of [for year in range(1, years + 1)]. *)
Definition loop_body (st : loop_state) (year : Z) : loop_state :=
  let annual_contribution := monthly_investment st * 12 in
  let after_tax_bonus := salary st * bonus_pct * (1 - bonus_tax) in
  let total_invested := annual_contribution + after_tax_bonus in
  let portfolio_value' := (portfolio_value st + total_invested) * (1 + growth_rate) in
  {| salary := salary st * (1 + raise_pct);
     portfolio_value := portfolio_value';
     monthly_investment := monthly_investment st + (base_salary * raise_pct) / 12;
     records := records st ++
       [ {| Year := year;
            Base_Salary := round2 (salary st);
            Monthly_Investment := round2 (monthly_investment st);
            Annual_Contribution := round2 annual_contribution;
            After_Tax_Bonus := round2 after_tax_bonus;
            Total_Invested := round2 total_invested;
            Portfolio_Value := round2 portfolio_value' |} ] |}.

(** The dict that the body appends for [year], read off the state at the
    start of that iteration. *)
Definition year_row (st : loop_state) (year : Z) : row :=
  let annual_contribution := monthly_investment st * 12 in
  let after_tax_bonus := salary st * bonus_pct * (1 - bonus_tax) in
  let total_invested := annual_contribution + after_tax_bonus in
  {| Year := year;
     Base_Salary := round2 (salary st);
     Monthly_Investment := round2 (monthly_investment st);
     Annual_Contribution := round2 annual_contribution;
     After_Tax_Bonus := round2 after_tax_bonus;
     Total_Invested := round2 total_invested;
     Portfolio_Value :=
       round2 ((portfolio_value st + total_invested) * (1 + growth_rate)) |}.

(** The loop, run over the first [n] years [1..n]. *)
Definition run_years (n : Z) : loop_state :=
  fold_left loop_body (py_range 1 (n + 1)) init_state.

(** [update_projection]: the rows of the data frame from which both the
    chart and the table are drawn. *)
Definition update_projection (years : Z) : list row :=
  records (run_years years).

(** What the callback hands back: the points of the line chart
    ([x='Year'], [y='Portfolio Value']) and the rows of the table, or a
    raise ([None]).  With no record the data frame has no columns and
    [px.line(df, x='Year', ...)] raises [ValueError]. *)
Definition projection_callback (years : Z)
  : option (list (Z * Q) * list row) :=
  match update_projection years with
  | [] => None
  | df => Some (List.map (fun r => (Year r, Portfolio_Value r)) df, df)
  end.

End Inputs.

(** Each element is at most its successor. *)
Definition nondecreasing (xs : list Q) : Prop :=
  forall (i : nat) (x y : Q), xs !! i = Some x -> xs !! S i = Some y -> x <= y.

End Projection.

(* ===================================================================== *)
(** * VIBES scorer ([vibes_dashboard.py]) *)
(* ===================================================================== *)

Module Vibes.

Import PyNum.
Local Open Scope Q_scope.

(** ** Strings: [str.lower], [str.upper], [needle in hay] (ASCII) *)

Definition is_upper_letter (c : ascii) : bool :=
  let n := N_of_ascii c in ((65 <=? n) && (n <=? 90))%N.

Definition is_lower_letter (c : ascii) : bool :=
  let n := N_of_ascii c in ((97 <=? n) && (n <=? 122))%N.

Definition lower_ascii (c : ascii) : ascii :=
  if is_upper_letter c then ascii_of_N (N_of_ascii c + 32) else c.

Definition upper_ascii (c : ascii) : ascii :=
  if is_lower_letter c then ascii_of_N (N_of_ascii c - 32) else c.

Fixpoint lower (s : string) : string :=
  match s with
  | EmptyString => EmptyString
  | String c s' => String (lower_ascii c) (lower s')
  end.

Fixpoint upper (s : string) : string :=
  match s with
  | EmptyString => EmptyString
  | String c s' => String (upper_ascii c) (upper s')
  end.

(** [needle in hay]. *)
Fixpoint contains (needle hay : string) : bool :=
  String.prefix needle hay ||
  match hay with
  | EmptyString => false
  | String _ hay' => contains needle hay'
  end.

(** Two strings differ only in letter case: same length, and position by
    position the same character or the two cases of one letter. *)
Definition same_letter (a b : ascii) : bool :=
  Ascii.eqb a b
  || (is_upper_letter a && Ascii.eqb (lower_ascii a) b)
  || (is_lower_letter a && Ascii.eqb (upper_ascii a) b).

Fixpoint differ_only_in_case (s t : string) : bool :=
  match s, t with
  | EmptyString, EmptyString => true
  | String a s', String b t' => same_letter a b && differ_only_in_case s' t'
  | _, _ => false
  end.

(** ** What the external providers hand to the scorer *)

(** One row of [stock.history(period="6mo")]; [index] is the row's
    timestamp in seconds, [Volume] a share count. *)
Record bar : Type := mkBar {
  index : Z;
  High : Q;
  Low : Q;
  Close : Q;
  Volume : Z
}.

(** [stock.option_chain()]: the [impliedVolatility] columns of the calls
    and of the puts (entries may be NaN). *)
Record chain : Type := mkChain {
  calls_iv : list pyfloat;
  puts_iv : list pyfloat
}.

(** [stock.calendar]: the access raises, the value is not a data frame
    with an ['Earnings Date'] row, the date is null, or it is a timestamp
    (seconds). *)
Inductive calendar : Type :=
| CalRaises
| CalNoEarningsRow
| CalNull
| CalDate (ts : Z).

(** The Finviz screener page behind [get_breadth_factor]: the request
    raises, the [count-text] cell is missing, its text does not parse, or
    it carries the integer after ["Total:"]. *)
Inductive breadth_page : Type :=
| BreadthRaises
| BreadthNoCountText
| BreadthUnparsable
| BreadthTotal (count : Z).

(** The ApeWisdom page: request raises, no [Mentions] cell, cell text is
    not an integer, or the integer. *)
Inductive reddit_page : Type :=
| RedditRaises
| RedditNoMentions
| RedditUnparsable
| RedditMentions (n : Z).

(** The Finviz quote page: request raises, no news table, a row without a
    link ([row.a] is [None]), or the headline texts. *)
Inductive finviz_page : Type :=
| FinvizRaises
| FinvizNoTable
| FinvizRowWithoutLink
| FinvizNews (headlines : list string).

Record providers : Type := mkProviders {
  history : list bar;
  option_chain : option chain;      (* [None]: [stock.option_chain()] raises *)
  stock_calendar : calendar;
  breadth : breadth_page;
  reddit : reddit_page;
  finviz : finviz_page
}.

(** ** [try: ... except Exception: ...] *)

(** A guarded block yields its value or raises ([None]); the handler's
    value replaces a raise. *)
Definition try_except {A : Type} (body : option A) (handler : A) : A :=
  match body with
  | Some v => v
  | None => handler
  end.

(** ** [get_breadth_factor] *)

Definition breadth_body (page : breadth_page) : option pyfloat :=
  match page with
  | BreadthTotal count =>
      let breadth_pct := fdiv (of_Z count) (Fin 500) in
      Some (py_min (py_max breadth_pct (Fin 0)) (Fin 1))
  | _ => None
  end.

Definition get_breadth_factor (page : breadth_page) : pyfloat :=
  try_except (breadth_body page) (Fin 0.5).

(** ** [get_sentiment_scores] *)

Definition reddit_body (page : reddit_page) : option pyfloat :=
  match page with
  | RedditRaises | RedditUnparsable => None
  | RedditNoMentions => Some (Fin 0.5)
  | RedditMentions n => Some (py_min (Fin 1) (fdiv (of_Z n) (Fin 1000)))
  end.

(** [sum(p(h) for h in headlines)]. *)
Definition count_where (p : string -> bool) (hs : list string) : Z :=
  fold_left (fun acc h => if p h then (acc + 1)%Z else acc) hs 0%Z.

Definition is_positive_headline (h : string) : bool :=
  contains "upgrade" (lower h) || contains "beats" (lower h).

Definition is_negative_headline (h : string) : bool :=
  contains "downgrade" (lower h) || contains "misses" (lower h).

Definition finviz_body (page : finviz_page) : option pyfloat :=
  match page with
  | FinvizRaises | FinvizRowWithoutLink => None
  | FinvizNoTable => Some (Fin 0.5)
  | FinvizNews headlines =>
      let pos := count_where is_positive_headline headlines in
      let neg := count_where is_negative_headline headlines in
      Some (fdiv (of_Z pos) (of_Z (pos + neg + 1)))
  end.

Definition get_sentiment_scores (r : reddit_page) (f : finviz_page)
  : pyfloat * pyfloat :=
  let reddit_score := try_except (reddit_body r) (Fin 0.5) in
  let sentiment_score := try_except (finviz_body f) (Fin 0.5) in
  (reddit_score, sentiment_score).

(** ** [calculate_vibes] *)

(** [xs[-n:]]. *)
Definition last_n {A : Type} (n : nat) (xs : list A) : list A :=
  drop (length xs - n) xs.

(** Truth value of a float: non-zero (NaN is true). *)
Definition truthy (x : pyfloat) : bool :=
  match x with
  | Fin q => negb (Qeq_bool q 0)
  | NaN => true
  end.

(** [s.rolling(w).mean().iloc[-1]]: NaN until [w] values are there. *)
Definition rolling_mean_last (w : nat) (xs : list pyfloat) : pyfloat :=
  if (length xs <? w)%nat then NaN else mean (last_n w xs).

Inductive signal : Type :=
| Bullish
| Neutral
| Bearish.

Record result : Type := mkResult {
  ticker : string;
  date : Z;                          (* [today.date()], as a day number *)
  factors : list (string * pyfloat); (* the dict, in insertion order *)
  vibes_score : pyfloat;
  signal_of : signal
}.

Definition seconds_per_day : Z := 86400.

(** [timedelta.days] of the difference of two timestamps. *)
Definition days_between (later earlier : Z) : Z :=
  ((later - earlier) / seconds_per_day)%Z.

Definition volume_factor (hist : list bar) (last_bar : bar) : pyfloat :=
  let avg_vol := mean (List.map (fun b => of_Z (Volume b)) (last_n 20 hist)) in
  let vol_score :=
    if truthy avg_vol then fdiv (of_Z (Volume last_bar)) avg_vol else Fin 0 in
  py_min (fdiv vol_score (Fin 2)) (Fin 1).

Definition dropna (xs : list pyfloat) : list pyfloat :=
  List.filter (fun x => negb (isnan x)) xs.

(** The guarded block of the volatility factor. *)
Definition iv_body (oc : option chain) : option pyfloat :=
  match oc with
  | None => None
  | Some options =>
      let all_ivs := dropna (calls_iv options) ++ dropna (puts_iv options) in
      let iv_score := fmul (mean all_ivs) (Fin 100) in
      if isnan iv_score then None else Some iv_score
  end.

(** Its handler: the historical high-low range.  Prices are finite
    numbers; a row with [Close = 0] (an infinity or NaN in pandas) is
    outside the model, see [fdiv]. *)
Definition iv_fallback (hist : list bar) : pyfloat :=
  let hl_range :=
    List.map (fun b => fdiv (Fin (High b - Low b)) (Fin (Close b))) hist in
  fmul (rolling_mean_last 5 hl_range) (Fin 100).

Definition volatility_factor (hist : list bar) (oc : option chain) : pyfloat :=
  let iv_score := try_except (iv_body oc) (iv_fallback hist) in
  py_min (fdiv iv_score (Fin 5)) (Fin 1).

(** The guarded block of the earnings factor: it raises ([None]) or ends
    with a value of the variable [earnings_factor], which it assigns only
    when the calendar has a non-null earnings date. *)
Definition earnings_body (cal : calendar) (today : Z) (earnings_factor : pyfloat)
  : option pyfloat :=
  match cal with
  | CalRaises => None
  | CalNoEarningsRow | CalNull => Some earnings_factor
  | CalDate earnings_date =>
      let days_to_earnings := days_between earnings_date today in
      Some (fdiv (of_Z (Z.max 0 (10 - Z.abs days_to_earnings))) (Fin 10))
  end.

Definition earnings_factor_of (cal : calendar) (today : Z) : pyfloat :=
  let earnings_factor := Fin 0.5 in
  try_except (earnings_body cal today earnings_factor) earnings_factor.

Definition signal_for (vibes : pyfloat) : signal :=
  if flt (Fin 0.65) vibes then Bullish
  else if flt (Fin 0.4) vibes then Neutral
  else Bearish.

Definition no_data : string := "No historical data found".

(** The part of [calculate_vibes] after the emptiness test; [last_bar] is
    the row [hist.iloc[-1]]. *)
Definition score (tkr : string) (env : providers) (last_bar : bar) : result :=
  let hist := history env in
  let today := index last_bar in
  let vol_factor := volume_factor hist last_bar in
  let iv_factor := volatility_factor hist (option_chain env) in
  let earnings_factor := earnings_factor_of (stock_calendar env) today in
  let breadth_factor := get_breadth_factor (breadth env) in
  let '(reddit_score, finviz_score) :=
    get_sentiment_scores (reddit env) (finviz env) in
  let sentiment_factor := fdiv (fadd reddit_score finviz_score) (Fin 2) in
  let vibes :=
    fdiv (fadd (fadd (fadd (fadd vol_factor iv_factor) earnings_factor)
                     breadth_factor) sentiment_factor) (Fin 5) in
  let signal := signal_for vibes in
  let factors :=
    [ ("Volume"%string, vol_factor);
      ("Volatility"%string, iv_factor);
      ("Earnings"%string, earnings_factor);
      ("Breadth"%string, breadth_factor);
      ("Sentiment"%string, sentiment_factor) ] in
  {| ticker := upper tkr;
     date := (today / seconds_per_day)%Z;
     factors := factors;
     vibes_score := vibes;
     signal_of := signal |}.

Definition calculate_vibes (tkr : string) (env : providers)
  : option result * option string :=
  match last (history env) with
  | None => (None, Some no_data)                       (* [hist.empty] *)
  | Some last_bar => (Some (score tkr env last_bar), None)
  end.

(** ** [update_dashboard] and the history store *)

(** [vibes_history_data]: ticker to the list of [(today_str, vibes_score)];
    the date string [str(result["date"])] is kept as the day number. *)
Abbreviation store := (gmap string (list (Z * pyfloat))).

Inductive figure : Type :=
| EmptyFigure                                              (* [go.Figure()] *)
| BarFigure (x : list string) (y : list pyfloat)
| ScatterFigure (pts : list (Z * pyfloat)).

Inductive children : Type :=
| ErrorText (msg : string)
| ScoreView (score : pyfloat) (sig : signal) (items : list (string * pyfloat)).

Definition update_dashboard (tkr : string) (env : providers) (data : store)
  : (children * figure * figure) * store :=
  match calculate_vibes tkr env with
  | (_, Some error) => ((ErrorText error, EmptyFigure, EmptyFigure), data)
  | (None, None) =>                      (* never returned by [calculate_vibes] *)
      ((ErrorText EmptyString, EmptyFigure, EmptyFigure), data)
  | (Some res, None) =>
      let today_str := date res in
      let tk := ticker res in
      let data1 :=
        match data !! tk with
        | None => <[tk := []]> data
        | Some _ => data
        end in
      let entries := default [] (data1 !! tk) ++ [(today_str, vibes_score res)] in
      let data2 := <[tk := entries]> data1 in
      ((ScoreView (vibes_score res) (signal_of res) (factors res),
        BarFigure (List.map fst (factors res)) (List.map snd (factors res)),
        ScatterFigure entries), data2)
  end.

(** ** Vocabulary of the properties *)

(** [factors[name]]. *)
Fixpoint dict_get (name : string) (d : list (string * pyfloat)) : option pyfloat :=
  match d with
  | [] => None
  | (k, v) :: d' => if String.eqb k name then Some v else dict_get name d'
  end.

Definition factor_names : list string :=
  ["Volume"; "Volatility"; "Earnings"; "Breadth"; "Sentiment"]%string.


(** The value is a non-negative number. *)
Definition nonneg_fin (x : pyfloat) : Prop :=
  match x with
  | Fin q => 0 <= q
  | NaN => False
  end.

(** The value is not a negative number (NaN entries are dropped by the
    code before use). *)
Definition not_negative (x : pyfloat) : Prop :=
  match x with
  | Fin q => 0 <= q
  | NaN => True
  end.

(** The volumes that enter the volume factor are non-negative. *)
Definition volumes_nonneg (env : providers) : Prop :=
  Forall (fun b => (0 <= Volume b)%Z) (last_n 20 (history env)).

(** The implied volatilities of the option chain are non-negative. *)
Definition ivs_nonneg (env : providers) : Prop :=
  match option_chain env with
  | Some options => Forall not_negative (calls_iv options ++ puts_iv options)
  | None => True
  end.

(** The last five rows exist and are price rows with [Low <= High] and a
    positive [Close]. *)
Definition five_price_rows (hist : list bar) : Prop :=
  (5 <= length hist)%nat
  /\ Forall (fun b => Low b <= High b /\ 0 < Close b) (last_n 5 hist).

(** The mention count, when the page has one, is non-negative. *)
Definition mentions_nonneg (env : providers) : Prop :=
  match reddit env with
  | RedditMentions n => (0 <= n)%Z
  | _ => True
  end.

(** The options chain, the earnings calendar, the breadth page and both
    sentiment pages are unavailable: each guarded block raises or finds
    nothing to use. *)
Definition all_providers_fail (env : providers) : Prop :=
  iv_body (option_chain env) = None
  /\ (forall ts, stock_calendar env <> CalDate ts)
  /\ breadth_body (breadth env) = None
  /\ (forall n, reddit env <> RedditMentions n)
  /\ (forall hs, finviz env <> FinvizNews hs).

(** The last row has no volume, and the last five rows exist, have a
    positive [Close] and no high-low range. *)
Definition untraded_and_flat (hist : list bar) : Prop :=
  (exists b, last hist = Some b /\ Volume b = 0%Z)
  /\ (5 <= length hist)%nat
  /\ Forall (fun b => High b == Low b /\ 0 < Close b) (last_n 5 hist).

(** ** Sample inputs *)

Definition day (n : Z) : Z := (n * seconds_per_day)%Z.

(** A row with volume 1000, high 11, low 10, close 10. *)
Definition sample_bar (d : Z) : bar :=
  {| index := day d; High := 11; Low := 10; Close := 10; Volume := 1000 |}.

(** A row with no volume and no range. *)
Definition quiet_bar (d : Z) : bar :=
  {| index := day d; High := 10; Low := 10; Close := 10; Volume := 0 |}.

Definition week : list bar :=
  [sample_bar 1; sample_bar 2; sample_bar 3; sample_bar 4; sample_bar 5].

Definition quiet_week : list bar :=
  [quiet_bar 1; quiet_bar 2; quiet_bar 3; quiet_bar 4; quiet_bar 5].

Definition failing (hist : list bar) : providers :=
  {| history := hist; option_chain := None; stock_calendar := CalRaises;
     breadth := BreadthRaises; reddit := RedditRaises; finviz := FinvizRaises |}.


(** Every source answers. *)
Definition healthy : providers :=
  {| history := week;
     option_chain := Some {| calls_iv := [Fin 0.02; NaN]; puts_iv := [Fin 0.04] |};
     stock_calendar := CalDate (day 8);
     breadth := BreadthTotal 320;
     reddit := RedditMentions 250;
     finviz := FinvizNews ["Analyst upgrade"; "Quarter misses"; "Beats estimates"]%string |}.

End Vibes.

(* ===================================================================== *)
(** * Live portfolio table ([portfolio_simulator2.py]) *)
(* ===================================================================== *)

Module Portfolio.

Import PyNum.
Local Open Scope Q_scope.

(** One entry of the [portfolio] dict. *)
Record position : Type := mkPosition {
  pos_ticker : string;
  shares : Q;
  cost_basis : Q
}.

(** The static [portfolio], in insertion order. *)
Definition portfolio : list position :=
  [ {| pos_ticker := "NVDA"; shares := 100.012; cost_basis := 113.46 |};
    {| pos_ticker := "CRM"; shares := 29; cost_basis := 264.38 |};
    {| pos_ticker := "SMCI"; shares := 1; cost_basis := 30.00 |};
    {| pos_ticker := "INTC"; shares := 3; cost_basis := 20 |};
    {| pos_ticker := "MSFT"; shares := 0.015; cost_basis := 390.67 |};
    {| pos_ticker := "META"; shares := 0.002; cost_basis := 589.28 |};
    {| pos_ticker := "AAPL"; shares := 0.01; cost_basis := 243.59 |};
    {| pos_ticker := "AMZN"; shares := 5; cost_basis := 237 |};
    {| pos_ticker := "GOOGL"; shares := 28; cost_basis := 185.45 |} ].

(** The figures of a ticker when the guarded block runs to its end:
    [fast_info['lastPrice']], and [info.get('targetMeanPrice')] and
    [info.get('forwardPE')], each a number or nothing ([None] or another
    false value). *)
Record quote : Type := mkQuote {
  lastPrice : Q;
  targetMeanPrice : option Q;
  forwardPE : option Q
}.

(** What the guarded block of one ticker comes to. *)
Inductive fetch_outcome : Type :=
| FetchRaises
    (* a raise before [total_value] is touched: [yf.Ticker], [stock.info],
       [fast['lastPrice']], or arithmetic on a price that is not a number *)
| Quoted (stock : quote)
    (* the block runs to its end *)
| RowRaises (price : Q).
    (* the price is a number, but [targetMeanPrice] or [forwardPE] is a true
       value that is not a number (say the text ['Infinity']): [round]
       raises while the dict is built, after [total_value += value] *)

(** The quote provider. *)
Definition quotes : Type := string -> fetch_outcome.

(** A table cell that holds a number or the text ['N/A']. *)
Inductive cell : Type :=
| Num (q : Q)
| NA.

(** One dict of [records]. *)
Record holding : Type := mkHolding {
  Ticker : string;
  Shares : Q;
  Cost_Basis : Q;
  Current_Price : Q;
  Value : Q;
  Gain_Loss : Q;
  Target_Price : cell;
  Forward_PE : cell
}.

(** Python's [round(x, 4)] on the exact value of [x]. *)
Definition round4 (q : Q) : Q := inject_Z (round_half_even (q * 10000)) / 10000.

(** [round(x, 2) if x else 'N/A']: a missing value and zero are both false. *)
Definition round2_or_na (x : option Q) : cell :=
  match x with
  | Some v => if Qeq_bool v 0 then NA else Num (round2 v)
  | None => NA
  end.

(** Body of [for ticker, pos in portfolio.items()], on the pair
    [(records, total_value)]. *)
Definition loop_body (fetch : quotes) (st : list holding * Q) (pos : position)
  : list holding * Q :=
  let '(records, total_value) := st in
  match fetch (pos_ticker pos) with
  | FetchRaises => (records, total_value)                (* [except]: printed *)
  | RowRaises price =>
      let value := price * shares pos in
      (records, total_value + value)                     (* [except]: printed *)
  | Quoted stock =>
      let price := lastPrice stock in
      let target := targetMeanPrice stock in
      let pe := forwardPE stock in
      let value := price * shares pos in
      let gain := (price - cost_basis pos) * shares pos in
      (records ++
         [ {| Ticker := pos_ticker pos;
              Shares := round4 (shares pos);
              Cost_Basis := round2 (cost_basis pos);
              Current_Price := round2 price;
              Value := round2 value;
              Gain_Loss := round2 gain;
              Target_Price := round2_or_na target;
              Forward_PE := round2_or_na pe |} ],
       total_value + value)
  end.

(** [get_portfolio_data], for a given dict of positions. *)
Definition get_portfolio_data_of (positions : list position) (fetch : quotes)
  : list holding * Q :=
  fold_left (loop_body fetch) positions ([], 0).

Definition get_portfolio_data (fetch : quotes) : list holding * Q :=
  get_portfolio_data_of portfolio fetch.

(** The positions whose guarded block runs to its end. *)
Definition fetched (positions : list position) (fetch : quotes) : list position :=
  List.filter (fun pos => match fetch (pos_ticker pos) with
                          | Quoted _ => true
                          | _ => false
                          end) positions.

(** Last price times shares of a position whose price was read, whether
    its row is then built or not (zero when the price was not read). *)
Definition market_value (fetch : quotes) (pos : position) : Q :=
  match fetch (pos_ticker pos) with
  | Quoted stock => lastPrice stock * shares pos
  | RowRaises price => price * shares pos
  | FetchRaises => 0
  end.

(** Last price times shares of a position whose row is not built although
    its price was read (zero for every other position). *)
Definition dropped_value (fetch : quotes) (pos : position) : Q :=
  match fetch (pos_ticker pos) with
  | RowRaises price => price * shares pos
  | _ => 0
  end.

(** No position loses its row after its price was read. *)
Definition no_row_raises (positions : list position) (fetch : quotes) : Prop :=
  forall pos price, In pos positions -> fetch (pos_ticker pos) <> RowRaises price.

(** Sum of a list of rationals. *)
Definition Qsum (xs : list Q) : Q := fold_right Qplus 0 xs.

(** The dict appended for a position whose quote is [stock]. *)
Definition holding_of (pos : position) (stock : quote) : holding :=
  let price := lastPrice stock in
  {| Ticker := pos_ticker pos;
     Shares := round4 (shares pos);
     Cost_Basis := round2 (cost_basis pos);
     Current_Price := round2 price;
     Value := round2 (price * shares pos);
     Gain_Loss := round2 ((price - cost_basis pos) * shares pos);
     Target_Price := round2_or_na (targetMeanPrice stock);
     Forward_PE := round2_or_na (forwardPE stock) |}.

(** The rows a list of positions contributes, one per completed block. *)
Definition rows_of (fetch : quotes) (positions : list position) : list holding :=
  flat_map (fun pos => match fetch (pos_ticker pos) with
                       | Quoted stock => [holding_of pos stock]
                       | _ => []
                       end) positions.

(** The row [r] is the row of a position of [positions] whose quote could
    be fetched. *)
Definition row_of_position (positions : list position) (fetch : quotes)
    (r : holding) (pos : position) (stock : quote) : Prop :=
  In pos positions /\ fetch (pos_ticker pos) = Quoted stock /\ r = holding_of pos stock.

End Portfolio.

(* ===================================================================== *)
(** * Sequences of dashboard callbacks *)
(* ===================================================================== *)

Module Session.

Import PyNum Vibes.

(** One firing of the [update_dashboard] callback: the ticker typed in and
    what the providers answer at that moment. *)
Definition call : Type := (string * providers)%type.

(** The store after a sequence of callbacks. *)
Definition run_calls (calls : list call) (data : store) : store :=
  fold_left (fun d c => snd (update_dashboard (fst c) (snd c) d)) calls data.

(** The stored history of a ticker ([[]] when the key is absent). *)
Definition history_of (data : store) (k : string) : list (Z * pyfloat) :=
  default [] (data !! k).

(** The call scores (its price history is not empty) and its key is [k]. *)
Definition scores_for (k : string) (c : call) : bool :=
  match history (snd c) with
  | [] => false
  | _ :: _ => String.eqb (upper (fst c)) k
  end.

(** The pair a call appends: the date and score of its result. *)
Definition entry_of (c : call) : list (Z * pyfloat) :=
  match calculate_vibes (fst c) (snd c) with
  | (Some r, _) => [(date r, vibes_score r)]
  | (None, _) => []
  end.

(** The pairs a sequence of calls appends under the key [k], in call order. *)
Definition appended (k : string) (calls : list call) : list (Z * pyfloat) :=
  flat_map (fun c => if scores_for k c then entry_of c else []) calls.

End Session.

(* ===================================================================== *)
(** * Facts about the numbers *)
(* ===================================================================== *)

Module PyNumFacts.
Import PyNum.
Local Open Scope Q_scope.

(** [lra] knows no division: divisions by a literal become products. *)
Ltac div_to_mul :=
  unfold Qdiv in *;
  repeat match goal with
  | |- context [Qinv (Qmake ?n ?d)] =>
      let v := eval vm_compute in (Qinv (Qmake n d)) in
      change (Qinv (Qmake n d)) with v
  | H : context [Qinv (Qmake ?n ?d)] |- _ =>
      let v := eval vm_compute in (Qinv (Qmake n d)) in
      change (Qinv (Qmake n d)) with v in H
  end.

Lemma floor_bounds (q : Q) :
  inject_Z (Qfloor q) <= q /\ q < inject_Z (Qfloor q) + 1.
Proof.
  split; [apply Qfloor_le |].
  pose proof (Qlt_floor q) as H. rewrite inject_Z_plus in H. exact H.
Qed.

Lemma round_half_even_cases (q : Q) :
  round_half_even q = Qfloor q \/ round_half_even q = (Qfloor q + 1)%Z.
Proof.
  unfold round_half_even.
  destruct (Qcompare _ _); [destruct (Z.even _) | |]; auto.
Qed.

Lemma round_half_even_mono (a b : Q) :
  a <= b -> (round_half_even a <= round_half_even b)%Z.
Proof.
  intros Hab.
  pose proof (Qfloor_resp_le _ _ Hab) as Hfl.
  destruct (Z.eq_dec (Qfloor a) (Qfloor b)) as [Heq | Hne].
  - unfold round_half_even. rewrite <- Heq.
    destruct (Qcompare_spec (a - inject_Z (Qfloor a)) (1 # 2)) as [Ha | Ha | Ha];
      destruct (Qcompare_spec (b - inject_Z (Qfloor a)) (1 # 2)) as [Hb | Hb | Hb];
      try destruct (Z.even (Qfloor a)); try lia; exfalso; lra.
  - destruct (round_half_even_cases a) as [-> | ->],
             (round_half_even_cases b) as [-> | ->]; lia.
Qed.

Lemma round_half_even_near (q : Q) :
  Qabs (inject_Z (round_half_even q) - q) <= 1 # 2.
Proof.
  destruct (floor_bounds q) as [Hlo Hhi].
  apply Qabs_Qle_condition. unfold round_half_even.
  destruct (Qcompare_spec (q - inject_Z (Qfloor q)) (1 # 2)) as [Hc | Hc | Hc];
    [destruct (Z.even (Qfloor q)) | |];
    rewrite ?inject_Z_plus; change (inject_Z 1) with 1; split; lra.
Qed.

#[export] Instance round_half_even_proper : Proper (Qeq ==> eq) round_half_even.
Proof.
  intros a b Hab. unfold round_half_even.
  rewrite (Qfloor_comp _ _ Hab).
  assert (Hc : Qcompare (a - inject_Z (Qfloor b)) (1 # 2)
               = Qcompare (b - inject_Z (Qfloor b)) (1 # 2)).
  { apply Qcompare_comp; [rewrite Hab |]; reflexivity. }
  now rewrite Hc.
Qed.

#[export] Instance round2_proper : Proper (Qeq ==> Qeq) round2.
Proof.
  intros a b Hab. unfold round2.
  assert (H : a * 100 == b * 100) by (rewrite Hab; reflexivity).
  now rewrite (round_half_even_proper _ _ H).
Qed.

Lemma round2_mono (a b : Q) : a <= b -> round2 a <= round2 b.
Proof.
  intros Hab. unfold round2.
  assert (H : (round_half_even (a * 100) <= round_half_even (b * 100))%Z)
    by (apply round_half_even_mono; lra).
  rewrite Zle_Qle in H. div_to_mul. lra.
Qed.

Lemma round2_near (q : Q) : Qabs (round2 q - q) <= 1 # 200.
Proof.
  pose proof (round_half_even_near (q * 100)) as H.
  apply Qabs_Qle_condition in H. apply Qabs_Qle_condition.
  unfold round2. div_to_mul. split; lra.
Qed.

End PyNumFacts.

(* ===================================================================== *)
(** * The growth projector: properties *)
(* ===================================================================== *)

Module ProjectionSpec.
Import PyNum PyNumFacts Projection.
Local Open Scope Q_scope.

Section Inputs.

Variables (base_salary bonus_pct bonus_tax raise_pct : Q).
Variables (monthly_investment0 growth_rate : Q).

Abbreviation body := (loop_body base_salary bonus_pct bonus_tax raise_pct growth_rate).
Abbreviation run :=
  (run_years base_salary bonus_pct bonus_tax raise_pct monthly_investment0 growth_rate).
Abbreviation rows :=
  (update_projection base_salary bonus_pct bonus_tax raise_pct
     monthly_investment0 growth_rate).
Abbreviation yrow := (year_row bonus_pct bonus_tax growth_rate).

Lemma py_range_snoc (k : nat) :
  py_range 1 (Z.of_nat (S k) + 1) = py_range 1 (Z.of_nat k + 1) ++ [Z.of_nat (S k)].
Proof.
  unfold py_range.
  replace (Z.to_nat (Z.of_nat (S k) + 1 - 1)) with (S k) by lia.
  replace (Z.to_nat (Z.of_nat k + 1 - 1)) with k by lia.
  rewrite seq_S, List.map_app. cbn [List.map]. do 3 f_equal. lia.
Qed.

Lemma py_range_empty (lo hi : Z) : (hi <= lo)%Z -> py_range lo hi = [].
Proof. intros H. unfold py_range. now replace (Z.to_nat (hi - lo)) with 0%nat by lia. Qed.

Lemma run_years_succ (k : nat) :
  run (Z.of_nat (S k)) = body (run (Z.of_nat k)) (Z.of_nat (S k)).
Proof. unfold run_years. now rewrite py_range_snoc, fold_left_app. Qed.

Lemma run_years_nonpos (n : Z) :
  (n <= 0)%Z ->
  run n = init_state base_salary monthly_investment0.
Proof. intros H. unfold run_years. now rewrite py_range_empty by lia. Qed.

Lemma body_records (st : loop_state) (year : Z) :
  records (body st year) = records st ++ [yrow st year].
Proof. reflexivity. Qed.

Lemma year_row_value (st : loop_state) (year : Z) :
  Portfolio_Value (yrow st year) = round2 (portfolio_value (body st year)).
Proof. reflexivity. Qed.

Lemma records_length (k : nat) : length (records (run (Z.of_nat k))) = k.
Proof.
  induction k as [| k IH]; [reflexivity |].
  rewrite run_years_succ, body_records, length_app, IH. cbn. lia.
Qed.

(** Row [i] (0-based) is the row of year [i+1], built from the state that
    [i] iterations leave. *)
Lemma records_lookup (k i : nat) :
  (i < k)%nat ->
  records (run (Z.of_nat k)) !! i
  = Some (yrow (run (Z.of_nat i)) (Z.of_nat (S i))).
Proof.
  induction k as [| k IH]; [lia |]. intros Hi.
  rewrite run_years_succ, body_records.
  destruct (decide (i = k)) as [-> | Hne].
  - rewrite lookup_app_r by (rewrite records_length; lia).
    rewrite records_length, Nat.sub_diag. reflexivity.
  - rewrite lookup_app_l by (rewrite records_length; lia).
    apply IH. lia.
Qed.

Lemma rows_lookup (years : Z) (i : nat) :
  (Z.of_nat i < years)%Z ->
  rows years !! i = Some (yrow (run (Z.of_nat i)) (Z.of_nat (S i))).
Proof.
  intros Hi. unfold update_projection.
  rewrite <- (Z2Nat.id years) by lia. apply records_lookup. lia.
Qed.

Lemma rows_length (years : Z) : length (rows years) = Z.to_nat years.
Proof.
  unfold update_projection. destruct (Z.le_gt_cases years 0) as [H | H].
  - rewrite run_years_nonpos by lia. cbn. lia.
  - rewrite <- (Z2Nat.id years) at 1 by lia. apply records_length.
Qed.

(** Closed form of the carried monthly investment. *)
Lemma monthly_investment_closed (k : nat) :
  monthly_investment (run (Z.of_nat k))
  == monthly_investment0 + inject_Z (Z.of_nat k) * (base_salary * raise_pct) / 12.
Proof.
  induction k as [| k IH].
  - rewrite run_years_nonpos by lia. cbn. div_to_mul. ring.
  - rewrite run_years_succ. cbn [loop_body monthly_investment]. rewrite IH.
    rewrite Nat2Z.inj_succ, <- Z.add_1_r, inject_Z_plus.
    change (inject_Z 1) with 1. div_to_mul. ring.
Qed.

Section NonNegative.

Hypothesis growth_nonneg : 0 <= growth_rate.
Hypothesis raise_nonneg : 0 <= raise_pct.
Hypothesis salary_nonneg : 0 <= base_salary.
Hypothesis bonus_nonneg : 0 <= bonus_pct.
Hypothesis tax_range : 0 <= bonus_tax <= 1.
Hypothesis monthly_nonneg : 0 <= monthly_investment0.

Lemma state_nonneg (k : nat) :
  0 <= salary (run (Z.of_nat k)) /\
  0 <= portfolio_value (run (Z.of_nat k)) /\
  0 <= monthly_investment (run (Z.of_nat k)).
Proof.
  induction k as [| k (Hs & Hp & Hm)].
  - rewrite run_years_nonpos by lia. cbn. repeat split; lra.
  - rewrite run_years_succ. cbn [loop_body salary portfolio_value monthly_investment].
    set (st := run (Z.of_nat k)) in *.
    assert (Hb : 0 <= salary st * bonus_pct * (1 - bonus_tax)).
    { repeat apply Qmult_le_0_compat; lra. }
    assert (Hr : 0 <= base_salary * raise_pct) by (apply Qmult_le_0_compat; lra).
    repeat split.
    + apply Qmult_le_0_compat; lra.
    + apply Qmult_le_0_compat; lra.
    + div_to_mul. lra.
Qed.

Lemma portfolio_value_step (k : nat) :
  portfolio_value (run (Z.of_nat k)) <= portfolio_value (run (Z.of_nat (S k))).
Proof.
  destruct (state_nonneg k) as (Hs & Hp & Hm).
  rewrite run_years_succ. cbn [loop_body portfolio_value].
  set (st := run (Z.of_nat k)) in *.
  assert (Hb : 0 <= salary st * bonus_pct * (1 - bonus_tax)).
  { repeat apply Qmult_le_0_compat; lra. }
  set (x := salary st * bonus_pct * (1 - bonus_tax)) in *.
  assert (Hg : 0 <= (portfolio_value st + (monthly_investment st * 12 + x)) * growth_rate).
  { apply Qmult_le_0_compat; lra. }
  lra.
Qed.

End NonNegative.
End Inputs.


(** C7.  For non-negative growth and raise rates, non-negative salary,
    bonus share and monthly investment, and a bonus tax rate in [0,1], the
    portfolio values of the emitted rows never decrease from one year to
    the next. *)
Theorem portfolio_value_nondecreasing
    (base_salary bonus_pct bonus_tax raise_pct monthly_investment0 growth_rate : Q)
    (years : Z) :
  0 <= growth_rate -> 0 <= raise_pct -> 0 <= base_salary ->
  0 <= bonus_pct -> 0 <= bonus_tax <= 1 -> 0 <= monthly_investment0 ->
  nondecreasing
    (List.map Portfolio_Value
       (update_projection base_salary bonus_pct bonus_tax raise_pct
          monthly_investment0 growth_rate years)).
Proof.
  intros Hg Hr Hs Hb Ht Hm i x y Hx Hy.
  rewrite list_lookup_fmap in Hx, Hy.
  assert (Hlen : (S i < Z.to_nat years)%nat).
  { rewrite <- (rows_length base_salary bonus_pct bonus_tax raise_pct
                  monthly_investment0 growth_rate).
    apply lookup_lt_is_Some. destruct (_ !! S i); [eauto | discriminate]. }
  rewrite rows_lookup in Hx by lia. rewrite rows_lookup in Hy by lia.
  cbn [fmap option_fmap option_map] in Hx, Hy.
  rewrite (year_row_value base_salary _ _ raise_pct) in Hx, Hy.
  rewrite <- run_years_succ in Hx, Hy.
  injection Hx as <-. injection Hy as <-.
  apply round2_mono. now apply portfolio_value_step.
Qed.

Lemma portfolio_value_nondecreasing_witness :
  nondecreasing
    (List.map Portfolio_Value (update_projection 250000 0.40 0.35 0.04 2000 0.15 10)).
Proof.
  apply (portfolio_value_nondecreasing 250000 0.40 0.35 0.04 2000 0.15 10);
    try split; vm_compute; discriminate.
Defined.



End ProjectionSpec.

(* ===================================================================== *)
(** * The VIBES scorer: properties *)
(* ===================================================================== *)

Module VibesSpec.
Import PyNum PyNumFacts Vibes.
Local Open Scope Q_scope.

(** ** Clamps *)

Lemma flt_true (a b : Q) : flt (Fin a) (Fin b) = true <-> a < b.
Proof.
  cbn. destruct (Qcompare_spec a b) as [H | H | H]; split; intros; try easy; lra.
Qed.

Lemma flt_false (a b : Q) : flt (Fin a) (Fin b) = false <-> b <= a.
Proof.
  cbn. destruct (Qcompare_spec a b) as [H | H | H]; split; intros; try easy; lra.
Qed.

(** [min(x, 1.0)] is never above 1 and keeps a non-negative [x] non-negative. *)
Lemma py_min_one (q : Q) : 0 <= q -> in_unit (py_min (Fin q) (Fin 1)).
Proof.
  intros Hq. unfold py_min. destruct (flt (Fin 1) (Fin q)) eqn:E; cbn.
  - lra.
  - apply flt_false in E. lra.
Qed.

Lemma py_min_one_r (q : Q) : 0 <= q -> in_unit (py_min (Fin 1) (Fin q)).
Proof.
  intros Hq. unfold py_min. destruct (flt (Fin q) (Fin 1)) eqn:E; cbn.
  - apply flt_true in E. lra.
  - lra.
Qed.

(** [min(max(x, 0), 1.0)] lies in the unit interval for every number. *)
Lemma clamp_both (q : Q) : in_unit (py_min (py_max (Fin q) (Fin 0)) (Fin 1)).
Proof.
  unfold py_max. destruct (flt (Fin q) (Fin 0)) eqn:E.
  - apply py_min_one. lra.
  - apply flt_false in E. now apply py_min_one.
Qed.

(** ** Sums and means *)

Lemma fold_fadd_nonneg (xs : list pyfloat) (acc : pyfloat) :
  Forall nonneg_fin xs -> nonneg_fin acc -> nonneg_fin (fold_left fadd xs acc).
Proof.
  intros Hxs. revert acc. induction Hxs as [| x xs Hx _ IH]; intros acc Hacc; [easy |].
  cbn [fold_left]. apply IH. destruct acc, x; cbn in *; try easy. lra.
Qed.

Lemma fold_fadd_not_negative (xs : list pyfloat) (acc : pyfloat) :
  Forall not_negative xs -> not_negative acc -> not_negative (fold_left fadd xs acc).
Proof.
  intros Hxs. revert acc. induction Hxs as [| x xs Hx _ IH]; intros acc Hacc; [easy |].
  cbn [fold_left]. apply IH. destruct acc, x; cbn in *; try easy. lra.
Qed.

Lemma Qdiv_nonneg (a b : Q) : 0 <= a -> 0 <= b -> 0 <= a / b.
Proof.
  intros Ha Hb. unfold Qdiv. apply Qmult_le_0_compat; [easy |].
  now apply Qinv_le_0_compat.
Qed.

Lemma fdiv_not_negative (x y : pyfloat) :
  not_negative x -> not_negative y -> not_negative (fdiv x y).
Proof.
  destruct x as [a |], y as [b |]; cbn; try easy.
  intros Ha Hb. destruct (Qeq_bool b 0); cbn; [easy | now apply Qdiv_nonneg].
Qed.

Lemma length_nonneg_fin {A : Type} (xs : list A) :
  xs <> [] -> exists q, of_Z (Z.of_nat (length xs)) = Fin q /\ 0 < q.
Proof.
  intros Hne. eexists. split; [reflexivity |].
  destruct xs; [easy |]. rewrite <- (Zlt_Qlt 0). cbn [length]. lia.
Qed.

Lemma mean_nonneg_fin (xs : list pyfloat) :
  xs <> [] -> Forall nonneg_fin xs -> nonneg_fin (mean xs).
Proof.
  intros Hne Hxs. unfold mean, py_sum.
  pose proof (fold_fadd_nonneg xs (Fin 0) Hxs) as Hs.
  destruct (fold_left fadd xs (Fin 0)) as [s |]; [| apply Hs; cbn; lra].
  destruct (length_nonneg_fin xs Hne) as (n & -> & Hn). cbn.
  destruct (Qeq_bool n 0) eqn:E.
  - apply Qeq_bool_iff in E. lra.
  - cbn. apply Qdiv_nonneg; [apply Hs; cbn |]; lra.
Qed.

Lemma mean_not_negative (xs : list pyfloat) :
  Forall not_negative xs -> not_negative (mean xs).
Proof.
  intros Hxs. unfold mean, py_sum. apply fdiv_not_negative.
  - apply fold_fadd_not_negative; [easy | cbn; lra].
  - cbn. rewrite <- (Zle_Qle 0). lia.
Qed.

(** ** Slices *)

Lemma last_in_last_n {A : Type} (n : nat) (xs : list A) (b : A) :
  (0 < n)%nat -> last xs = Some b -> b ∈ last_n n xs.
Proof.
  intros Hn Hlast. apply last_Some in Hlast as [xs' ->].
  unfold last_n. rewrite length_app. cbn [length].
  rewrite drop_app_le by lia. apply elem_of_app. right. apply list_elem_of_singleton.
  reflexivity.
Qed.

Lemma last_n_map {A B : Type} (f : A -> B) (n : nat) (xs : list A) :
  last_n n (List.map f xs) = List.map f (last_n n xs).
Proof. unfold last_n. now rewrite List.length_map, List.skipn_map. Qed.

Lemma last_n_length {A : Type} (n : nat) (xs : list A) :
  (n <= length xs)%nat -> length (last_n n xs) = n.
Proof. intros H. unfold last_n. rewrite length_drop. lia. Qed.

Lemma Forall_list_filter {A : Type} (P : A -> Prop) (f : A -> bool) (xs : list A) :
  Forall P xs -> Forall P (List.filter f xs).
Proof.
  induction 1 as [| x xs Hx _ IH]; cbn; [constructor |].
  destruct (f x); [constructor |]; assumption.
Qed.

(** ** The five factors *)

Lemma fdiv_literal (a b : Q) :
  Qeq_bool b 0 = false -> fdiv (Fin a) (Fin b) = Fin (a / b).
Proof. intros H. cbn. now rewrite H. Qed.

Lemma Qeq_bool_pos (q : Q) : 0 < q -> Qeq_bool q 0 = false.
Proof.
  intros Hq. destruct (Qeq_bool q 0) eqn:E; [| reflexivity].
  apply Qeq_bool_iff in E. lra.
Qed.

Lemma volume_factor_in_unit (hist : list bar) (b : bar) :
  last hist = Some b ->
  Forall (fun b => (0 <= Volume b)%Z) (last_n 20 hist) ->
  in_unit (volume_factor hist b).
Proof.
  intros Hlast Hvol. unfold volume_factor.
  assert (Hin : b ∈ last_n 20 hist) by (apply last_in_last_n; [lia | easy]).
  assert (Hb : 0 <= inject_Z (Volume b)).
  { rewrite <- (Zle_Qle 0). rewrite Forall_forall in Hvol. now apply Hvol. }
  set (vols := List.map (fun b0 : bar => of_Z (Volume b0)) (last_n 20 hist)).
  assert (Hmean : nonneg_fin (mean vols)).
  { apply mean_nonneg_fin.
    - intros Hnil. apply (f_equal (@length pyfloat)) in Hnil. unfold vols in Hnil.
      rewrite List.length_map in Hnil. destruct (last_n 20 hist); [| easy].
      now apply elem_of_nil in Hin.
    - unfold vols. apply Forall_map. eapply Forall_impl; [exact Hvol |].
      intros a Ha. cbn. now rewrite <- (Zle_Qle 0). }
  destruct (mean vols) as [avg |]; [cbn in Hmean | easy].
  cbn [truthy]. destruct (Qeq_bool avg 0) eqn:E; cbn [negb].
  - rewrite fdiv_literal by reflexivity. apply py_min_one. div_to_mul. lra.
  - unfold of_Z. rewrite (fdiv_literal _ avg) by exact E.
    rewrite fdiv_literal by reflexivity. apply py_min_one.
    pose proof (Qdiv_nonneg _ _ Hb Hmean). div_to_mul. lra.
Qed.

Lemma iv_body_nonneg (options : chain) (s : pyfloat) :
  Forall not_negative (calls_iv options ++ puts_iv options) ->
  iv_body (Some options) = Some s -> nonneg_fin s.
Proof.
  intros Hiv. cbn [iv_body].
  set (all_ivs := dropna (calls_iv options) ++ dropna (puts_iv options)).
  assert (Hm : not_negative (mean all_ivs)).
  { apply mean_not_negative. apply Forall_app in Hiv as [Hc Hp].
    apply Forall_app. split; now apply Forall_list_filter. }
  destruct (mean all_ivs) as [m |]; cbn; [| discriminate].
  intros [= <-]. cbn in *. lra.
Qed.

Lemma iv_fallback_nonneg (hist : list bar) :
  five_price_rows hist -> nonneg_fin (iv_fallback hist).
Proof.
  intros [Hlen Hrows]. unfold iv_fallback, rolling_mean_last.
  rewrite List.length_map.
  replace (length hist <? 5)%nat with false by (symmetry; apply Nat.ltb_ge; lia).
  rewrite last_n_map.
  set (hl := List.map _ (last_n 5 hist)).
  assert (Hm : nonneg_fin (mean hl)).
  { apply mean_nonneg_fin.
    - intros Hnil. apply (f_equal (@length pyfloat)) in Hnil. unfold hl in Hnil.
      rewrite List.length_map, last_n_length in Hnil by lia. discriminate.
    - unfold hl. apply Forall_map. eapply Forall_impl; [exact Hrows |].
      intros a [Hlo Hc]. cbn beta. rewrite fdiv_literal by now apply Qeq_bool_pos.
      cbn. apply Qdiv_nonneg; lra. }
  destruct (mean hl) as [m |]; cbn in *; [lra | easy].
Qed.

Lemma volatility_factor_in_unit (hist : list bar) (oc : option chain) :
  match oc with
  | Some options => Forall not_negative (calls_iv options ++ puts_iv options)
  | None => True
  end ->
  (iv_body oc = None -> five_price_rows hist) ->
  in_unit (volatility_factor hist oc).
Proof.
  intros Hiv Hfb. unfold volatility_factor.
  assert (Hs : nonneg_fin (try_except (iv_body oc) (iv_fallback hist))).
  { destruct (iv_body oc) as [s |] eqn:E; cbn [try_except].
    - destruct oc as [options |]; [| discriminate]. now apply (iv_body_nonneg options).
    - now apply iv_fallback_nonneg, Hfb. }
  destruct (try_except _ _) as [s |]; [cbn in Hs | easy].
  rewrite fdiv_literal by reflexivity. apply py_min_one. div_to_mul. lra.
Qed.

Lemma earnings_factor_in_unit (cal : calendar) (today : Z) :
  in_unit (earnings_factor_of cal today).
Proof.
  destruct cal as [| | | ts]; try (cbn; lra).
  unfold earnings_factor_of, earnings_body, try_except, of_Z.
  rewrite fdiv_literal by reflexivity.
  set (m := Z.max 0 (10 - Z.abs (days_between ts today))).
  assert (H0 : 0 <= inject_Z m) by (rewrite <- (Zle_Qle 0); lia).
  assert (H1 : inject_Z m <= inject_Z 10) by (rewrite <- Zle_Qle; lia).
  change (inject_Z 10) with 10 in H1. unfold in_unit. div_to_mul. lra.
Qed.

Lemma breadth_factor_in_unit (page : breadth_page) :
  in_unit (get_breadth_factor page).
Proof.
  destruct page as [| | | count]; cbn -[py_min py_max]; try (cbn; lra).
  apply clamp_both.
Qed.

Lemma count_where_nonneg (p : string -> bool) (hs : list string) :
  (0 <= count_where p hs)%Z.
Proof.
  unfold count_where.
  enough (H : forall acc : Z, (0 <= acc)%Z ->
              (0 <= fold_left (fun a h => if p h then (a + 1)%Z else a) hs acc)%Z)
    by (apply H; lia).
  induction hs as [| h hs IH]; intros acc Hacc; [easy |].
  cbn [fold_left]. apply IH. destruct (p h); lia.
Qed.

Lemma reddit_score_bounds (page : reddit_page) :
  match try_except (reddit_body page) (Fin 0.5) with
  | Fin q => q <= 1 /\ (match page with RedditMentions n => (0 <= n)%Z | _ => True end -> 0 <= q)
  | NaN => False
  end.
Proof.
  destruct page as [| | | n]; try (cbn; split; intros; lra).
  unfold reddit_body, try_except, of_Z. rewrite fdiv_literal by reflexivity.
  unfold py_min.
  destruct (flt (Fin (inject_Z n / 1000)) (Fin 1)) eqn:E.
  - apply flt_true in E. split; [lra |]. intros Hn.
    apply (Qdiv_nonneg _ 1000); [rewrite <- (Zle_Qle 0); lia | lra].
  - split; intros; lra.
Qed.

Lemma finviz_score_bounds (page : finviz_page) :
  in_unit (try_except (finviz_body page) (Fin 0.5)).
Proof.
  destruct page as [| | | hs]; try (cbn; lra).
  unfold finviz_body, try_except, of_Z.
  pose proof (count_where_nonneg is_positive_headline hs) as Hp.
  pose proof (count_where_nonneg is_negative_headline hs) as Hn.
  set (pos := count_where is_positive_headline hs) in *.
  set (neg := count_where is_negative_headline hs) in *.
  assert (Hd : 0 < inject_Z (pos + neg + 1)) by (rewrite <- (Zlt_Qlt 0); lia).
  rewrite fdiv_literal by now apply Qeq_bool_pos. split.
  - apply Qdiv_nonneg; [rewrite <- (Zle_Qle 0); lia | lra].
  - apply Qle_shift_div_r; [exact Hd |]. rewrite Qmult_1_l, <- Zle_Qle. lia.
Qed.

Lemma sentiment_factor_in_unit (r : reddit_page) (f : finviz_page) :
  match r with RedditMentions n => (0 <= n)%Z | _ => True end ->
  in_unit (fdiv (fadd (fst (get_sentiment_scores r f))
                      (snd (get_sentiment_scores r f))) (Fin 2)).
Proof.
  intros Hn. cbn [get_sentiment_scores fst snd].
  pose proof (reddit_score_bounds r) as Hr. pose proof (finviz_score_bounds f) as Hf.
  destruct (try_except (reddit_body r) _) as [a |]; [| easy].
  destruct (try_except (finviz_body f) _) as [b |]; [| easy].
  destruct Hr as [Ha1 Ha0]. specialize (Ha0 Hn). cbn in Hf.
  cbn [fadd]. rewrite fdiv_literal by reflexivity. unfold in_unit. div_to_mul. lra.
Qed.

(** ** The result of a successful call *)

Lemma calculate_vibes_ok (tkr : string) (env : providers) (r : result) :
  calculate_vibes tkr env = (Some r, None) <->
  exists b, last (history env) = Some b /\ r = score tkr env b.
Proof.
  unfold calculate_vibes. destruct (last (history env)) as [b |]; split.
  - intros [= <-]. eauto.
  - intros (b' & [= <-] & ->). reflexivity.
  - discriminate.
  - intros (b' & [=] & _).
Qed.

Lemma calculate_vibes_nonempty (tkr : string) (env : providers) :
  history env <> [] -> exists b, last (history env) = Some b
                                 /\ calculate_vibes tkr env = (Some (score tkr env b), None).
Proof.
  intros Hne. unfold calculate_vibes.
  destruct (last (history env)) as [b |] eqn:E; [eauto |].
  now apply last_None in E.
Qed.

Lemma calculate_vibes_empty (tkr : string) (env : providers) :
  history env = [] -> calculate_vibes tkr env = (None, Some no_data).
Proof. intros H. unfold calculate_vibes. now rewrite H. Qed.




(** A history shorter than the five-row window, with no option data, makes
    the Volatility factor and the score NaN. *)
Example short_history_volatility_nan :
  let r := score "NVDA" (failing [sample_bar 1]) (sample_bar 1) in
  calculate_vibes "NVDA" (failing [sample_bar 1]) = (Some r, None)
  /\ dict_get "Volatility" (factors r) = Some NaN
  /\ vibes_score r = NaN
  /\ signal_of r = Bearish.
Proof. repeat split. Qed.

(** ** The mean of the five factors *)

Lemma mean_of_five (a b c d e : pyfloat) :
  feq (fdiv (fadd (fadd (fadd (fadd a b) c) d) e) (Fin 5)) (mean [a; b; c; d; e]).
Proof.
  unfold mean, py_sum, of_Z.
  destruct a, b, c, d, e; cbn [fold_left fadd]; try exact I.
  rewrite !fdiv_literal by reflexivity. cbn [feq length].
  change (inject_Z (Z.of_nat 5)) with 5. div_to_mul. ring.
Qed.

(** C2.  The score of a successful call is the arithmetic mean of the five
    values of its [factors] (Volume, Volatility, Earnings, Breadth,
    Sentiment). *)
Theorem vibes_score_is_mean (tkr : string) (env : providers) (r : result) :
  calculate_vibes tkr env = (Some r, None) ->
  List.map fst (factors r) = factor_names
  /\ feq (vibes_score r) (mean (List.map snd (factors r))).
Proof.
  intros Hcall. apply calculate_vibes_ok in Hcall as (b & Hlast & ->).
  unfold score.
  destruct (get_sentiment_scores (reddit env) (finviz env)) as [reddit_score finviz_score].
  split; [reflexivity |]. cbn [factors vibes_score List.map snd]. apply mean_of_five.
Qed.

Lemma vibes_score_is_mean_witness :
  feq (vibes_score (score "nvda" healthy (sample_bar 5)))
      (mean (List.map snd (factors (score "nvda" healthy (sample_bar 5))))).
Proof.
  apply (vibes_score_is_mean "nvda" healthy (score "nvda" healthy (sample_bar 5))).
  reflexivity.
Defined.

(** ** Fallbacks *)

Lemma py_min_below_one (q : Q) : q <= 1 -> py_min (Fin q) (Fin 1) = Fin q.
Proof.
  intros Hq. unfold py_min.
  destruct (flt (Fin 1) (Fin q)) eqn:E; [| reflexivity].
  apply flt_true in E. lra.
Qed.

Lemma fold_fadd_fin (xs : list pyfloat) (acc : pyfloat) :
  Forall (fun x => isnan x = false) xs -> isnan acc = false ->
  isnan (fold_left fadd xs acc) = false.
Proof.
  intros Hxs. revert acc. induction Hxs as [| x xs Hx _ IH]; intros acc Hacc; [easy |].
  cbn [fold_left]. apply IH. now destruct acc, x.
Qed.

Lemma mean_fin (xs : list pyfloat) :
  xs <> [] -> Forall (fun x => isnan x = false) xs -> isnan (mean xs) = false.
Proof.
  intros Hne Hxs. unfold mean, py_sum.
  pose proof (fold_fadd_fin xs (Fin 0) Hxs eq_refl) as Hs.
  destruct (fold_left fadd xs (Fin 0)) as [s |]; [| discriminate].
  destruct (length_nonneg_fin xs Hne) as (n & -> & Hn).
  now rewrite fdiv_literal by now apply Qeq_bool_pos.
Qed.

Lemma fold_fadd_zero (xs : list pyfloat) (acc : pyfloat) :
  Forall (fun x => feq x (Fin 0)) xs -> feq acc (Fin 0) ->
  feq (fold_left fadd xs acc) (Fin 0).
Proof.
  intros Hxs. revert acc. induction Hxs as [| x xs Hx _ IH]; intros acc Hacc; [easy |].
  cbn [fold_left]. apply IH. destruct acc, x; cbn in *; try easy. lra.
Qed.

Lemma mean_zero (xs : list pyfloat) :
  xs <> [] -> Forall (fun x => feq x (Fin 0)) xs -> feq (mean xs) (Fin 0).
Proof.
  intros Hne Hxs. unfold mean, py_sum.
  pose proof (fold_fadd_zero xs (Fin 0) Hxs) as Hs.
  destruct (fold_left fadd xs (Fin 0)) as [s |]; [| apply Hs; reflexivity].
  destruct (length_nonneg_fin xs Hne) as (n & -> & Hn).
  rewrite fdiv_literal by now apply Qeq_bool_pos.
  cbn in *. rewrite Hs by reflexivity. unfold Qdiv. ring.
Qed.

Lemma volume_factor_untraded (hist : list bar) (b : bar) :
  last hist = Some b -> Volume b = 0%Z -> feq (volume_factor hist b) (Fin 0).
Proof.
  intros Hlast Hz. unfold volume_factor. rewrite Hz.
  set (vols := List.map (fun b0 : bar => of_Z (Volume b0)) (last_n 20 hist)).
  assert (Hm : isnan (mean vols) = false).
  { apply mean_fin.
    - intros Hnil. apply (f_equal (@length pyfloat)) in Hnil. unfold vols in Hnil.
      rewrite List.length_map in Hnil.
      assert (Hin : b ∈ last_n 20 hist) by (apply last_in_last_n; [lia | easy]).
      destruct (last_n 20 hist); [now apply elem_of_nil in Hin | easy].
    - unfold vols. apply Forall_map, Forall_forall. reflexivity. }
  destruct (mean vols) as [avg |]; [| discriminate]. cbn [truthy].
  destruct (Qeq_bool avg 0) eqn:E; cbn [negb].
  - rewrite fdiv_literal by reflexivity. rewrite py_min_below_one; cbn; div_to_mul; lra.
  - unfold of_Z. rewrite (fdiv_literal _ avg) by exact E.
    rewrite fdiv_literal by reflexivity.
    assert (H0 : inject_Z 0 / avg / 2 == 0) by (unfold Qdiv; ring).
    rewrite py_min_below_one; cbn; lra.
Qed.

Lemma iv_fallback_flat (hist : list bar) :
  (5 <= length hist)%nat ->
  Forall (fun b => High b == Low b /\ 0 < Close b) (last_n 5 hist) ->
  feq (iv_fallback hist) (Fin 0).
Proof.
  intros Hlen Hrows. unfold iv_fallback, rolling_mean_last.
  rewrite List.length_map.
  replace (length hist <? 5)%nat with false by (symmetry; apply Nat.ltb_ge; lia).
  rewrite last_n_map.
  set (hl := List.map _ (last_n 5 hist)).
  assert (Hm : feq (mean hl) (Fin 0)).
  { apply mean_zero.
    - intros Hnil. apply (f_equal (@length pyfloat)) in Hnil. unfold hl in Hnil.
      rewrite List.length_map, last_n_length in Hnil by lia. discriminate.
    - unfold hl. apply Forall_map. eapply Forall_impl; [exact Hrows |].
      intros a [Hhl Hc]. cbn beta. rewrite fdiv_literal by now apply Qeq_bool_pos.
      cbn. rewrite Hhl. unfold Qdiv. ring. }
  destruct (mean hl) as [m |]; cbn in *; [| easy]. rewrite Hm. ring.
Qed.

Lemma volatility_flat (x : pyfloat) :
  feq x (Fin 0) -> feq (py_min (fdiv x (Fin 5)) (Fin 1)) (Fin 0).
Proof.
  destruct x as [q |]; [| easy]. cbn [feq]. intros Hq.
  rewrite fdiv_literal by reflexivity.
  assert (H0 : q / 5 == 0) by (rewrite Hq; reflexivity).
  rewrite py_min_below_one; cbn; lra.
Qed.

(** C3 (as amended).  With a non-empty price history and the option chain,
    the earnings calendar, the breadth page and both sentiment pages
    unavailable, the scorer returns a result in which Earnings, Breadth and
    Sentiment are 0.5, Volume is computed from the volumes of the history
    and Volatility from its high-low range.  When the last row has no
    volume and the last five rows exist and have [High = Low] and a
    positive [Close], the factors are 0, 0, 0.5, 0.5, 0.5, the score is 0.3
    and the signal is Bearish. *)
Theorem providers_fail_fallbacks (tkr : string) (env : providers) :
  history env <> [] ->
  all_providers_fail env ->
  exists (r : result) (b : bar),
    calculate_vibes tkr env = (Some r, None)
    /\ last (history env) = Some b
    /\ factors r =
         [ ("Volume"%string, volume_factor (history env) b);
           ("Volatility"%string,
              py_min (fdiv (iv_fallback (history env)) (Fin 5)) (Fin 1));
           ("Earnings"%string, Fin 0.5);
           ("Breadth"%string, Fin 0.5);
           ("Sentiment"%string, fdiv (fadd (Fin 0.5) (Fin 0.5)) (Fin 2)) ]
    /\ feq (fdiv (fadd (Fin 0.5) (Fin 0.5)) (Fin 2)) (Fin 0.5)
    /\ (untraded_and_flat (history env) ->
        feq (volume_factor (history env) b) (Fin 0)
        /\ feq (py_min (fdiv (iv_fallback (history env)) (Fin 5)) (Fin 1)) (Fin 0)
        /\ feq (vibes_score r) (Fin 0.3)
        /\ signal_of r = Bearish).
Proof.
  intros Hne (Hoc & Hcal & Hbr & Hred & Hfin).
  destruct (calculate_vibes_nonempty tkr env Hne) as (b & Hlast & Hcall).
  exists (score tkr env b), b. split; [exact Hcall |]. split; [exact Hlast |].
  assert (He : earnings_factor_of (stock_calendar env) (index b) = Fin 0.5).
  { destruct (stock_calendar env) as [| | | ts]; try reflexivity.
    now destruct (Hcal ts). }
  assert (Hb : get_breadth_factor (breadth env) = Fin 0.5).
  { unfold get_breadth_factor. now rewrite Hbr. }
  assert (Hs : get_sentiment_scores (reddit env) (finviz env) = (Fin 0.5, Fin 0.5)).
  { unfold get_sentiment_scores. f_equal.
    - destruct (reddit env) as [| | | n]; try reflexivity. now destruct (Hred n).
    - destruct (finviz env) as [| | | hs]; try reflexivity. now destruct (Hfin hs). }
  assert (Hv : volatility_factor (history env) (option_chain env)
               = py_min (fdiv (iv_fallback (history env)) (Fin 5)) (Fin 1)).
  { unfold volatility_factor. now rewrite Hoc. }
  unfold score. rewrite He, Hb, Hs, Hv. cbn [factors vibes_score signal_of].
  split; [reflexivity |]. split; [reflexivity |].
  intros ((b' & Hlast' & Hvol0) & Hlen & Hflat).
  rewrite Hlast in Hlast'. injection Hlast' as <-.
  pose proof (volume_factor_untraded _ _ Hlast Hvol0) as Hvol.
  pose proof (volatility_flat _ (iv_fallback_flat _ Hlen Hflat)) as Hiv.
  split; [exact Hvol |]. split; [exact Hiv |].
  destruct (volume_factor (history env) b) as [v |]; [| easy].
  destruct (py_min _ _) as [i |]; [| easy].
  cbn in Hvol, Hiv.
  change (fdiv (fadd (Fin 0.5) (Fin 0.5)) (Fin 2)) with (Fin ((0.5 + 0.5) / 2)).
  cbn [fadd]. rewrite fdiv_literal by reflexivity.
  assert (Hscore : (v + i + 0.5 + 0.5 + (0.5 + 0.5) / 2) / 5 == 0.3).
  { rewrite Hvol, Hiv. reflexivity. }
  split; [exact Hscore |].
  unfold signal_for.
  replace (flt (Fin 0.65) _) with false by (symmetry; apply flt_false; lra).
  replace (flt (Fin 0.4) _) with false by (symmetry; apply flt_false; lra).
  reflexivity.
Qed.

Lemma providers_fail_fallbacks_witness :
  exists (r : result),
    calculate_vibes "NVDA" (failing quiet_week) = (Some r, None)
    /\ feq (vibes_score r) (Fin 0.3)
    /\ signal_of r = Bearish.
Proof.
  assert (Hne : history (failing quiet_week) <> []) by discriminate.
  assert (Hfail : all_providers_fail (failing quiet_week)).
  { repeat split; discriminate. }
  assert (Hflat : untraded_and_flat (history (failing quiet_week))).
  { split; [exists (quiet_bar 5); split; reflexivity |].
    split; [cbn; lia |]. cbn. repeat constructor. }
  destruct (providers_fail_fallbacks "NVDA" (failing quiet_week) Hne Hfail)
    as (r & b & Hcall & _ & _ & _ & Hquiet).
  destruct (Hquiet Hflat) as (_ & _ & Hscore & Hsig).
  exists r. auto.
Defined.

(** C3, counterexample.  With every provider unavailable and five ordinary
    price rows (volume 1000, high 11, low 10, close 10) the factors are
    0.5, 1, 0.5, 0.5, 0.5, the score is 0.6 and the signal Neutral. *)
Lemma providers_fail_not_zero :
  history (failing week) <> []
  /\ all_providers_fail (failing week)
  /\ exists r : result,
       calculate_vibes "NVDA" (failing week) = (Some r, None)
       /\ (exists v, dict_get "Volume" (factors r) = Some v /\ feq v (Fin 0.5))
       /\ (exists v, dict_get "Volatility" (factors r) = Some v /\ feq v (Fin 1))
       /\ feq (vibes_score r) (Fin 0.6)
       /\ ~ feq (vibes_score r) (Fin 0.3)
       /\ signal_of r = Neutral.
Proof.
  split; [discriminate |]. split; [repeat split; discriminate |].
  eexists. split; [reflexivity |].
  split; [eexists; split; reflexivity |].
  split; [eexists; split; reflexivity |].
  split; [reflexivity |]. split; [| reflexivity].
  vm_compute. discriminate.
Qed.

(** ** Signal *)

(** C4.  The signal is Bullish for a score above 0.65, Neutral for a score
    above 0.4 and at most 0.65, Bearish for a score of at most 0.4; so
    0.65 is Neutral, 0.6501 Bullish, 0.4 Bearish and 0.4001 Neutral.  The
    signal of a result is the signal of its score. *)
Theorem signal_thresholds (q : Q) :
  (0.65 < q -> signal_for (Fin q) = Bullish)
  /\ (0.4 < q <= 0.65 -> signal_for (Fin q) = Neutral)
  /\ (q <= 0.4 -> signal_for (Fin q) = Bearish)
  /\ signal_for (Fin 0.65) = Neutral
  /\ signal_for (Fin 0.6501) = Bullish
  /\ signal_for (Fin 0.4) = Bearish
  /\ signal_for (Fin 0.4001) = Neutral
  /\ (forall (tkr : string) (env : providers) (r : result),
        calculate_vibes tkr env = (Some r, None) ->
        signal_of r = signal_for (vibes_score r)).
Proof.
  unfold signal_for. repeat split; try reflexivity.
  - intros H. now replace (flt (Fin 0.65) (Fin q)) with true
      by (symmetry; apply flt_true; lra).
  - intros [H1 H2].
    replace (flt (Fin 0.65) (Fin q)) with false by (symmetry; apply flt_false; lra).
    now replace (flt (Fin 0.4) (Fin q)) with true by (symmetry; apply flt_true; lra).
  - intros H.
    replace (flt (Fin 0.65) (Fin q)) with false by (symmetry; apply flt_false; lra).
    now replace (flt (Fin 0.4) (Fin q)) with false by (symmetry; apply flt_false; lra).
  - intros tkr env r Hcall. apply calculate_vibes_ok in Hcall as (b & _ & ->).
    unfold score.
    now destruct (get_sentiment_scores (reddit env) (finviz env)).
Qed.

Lemma signal_thresholds_witness :
  signal_for (Fin 0.9) = Bullish
  /\ signal_for (Fin 0.5) = Neutral
  /\ signal_for (Fin 0.1) = Bearish
  /\ signal_of (score "nvda" healthy (sample_bar 5))
     = signal_for (vibes_score (score "nvda" healthy (sample_bar 5))).
Proof.
  destruct (signal_thresholds 0.9) as (Hbull & _).
  destruct (signal_thresholds 0.5) as (_ & Hneut & _).
  destruct (signal_thresholds 0.1) as (_ & _ & Hbear & _ & _ & _ & _ & Hres).
  split; [apply Hbull; reflexivity |].
  split; [apply Hneut; split; [reflexivity | discriminate] |].
  split; [apply Hbear; discriminate |].
  apply (Hres "nvda" healthy). reflexivity.
Defined.

(** ** Failure *)

(** C5.  An empty price history is the one case in which the scorer
    reports an error: it returns the no-data message, and the dashboard
    shows that message with two empty figures and leaves the history store
    as it was.  For every non-empty price history the scorer returns a
    result with the upper-cased ticker, the five factors, the score and the
    signal, and the dashboard shows it. *)
Theorem no_history_is_the_only_failure
    (tkr : string) (env : providers) (data : store) :
  (history env = [] ->
     calculate_vibes tkr env = (None, Some no_data)
     /\ update_dashboard tkr env data
        = ((ErrorText no_data, EmptyFigure, EmptyFigure), data))
  /\ (history env <> [] ->
      exists r : result,
        calculate_vibes tkr env = (Some r, None)
        /\ ticker r = upper tkr
        /\ List.map fst (factors r) = factor_names
        /\ signal_of r = signal_for (vibes_score r)
        /\ exists (trend : list (Z * pyfloat)) (data' : store),
             update_dashboard tkr env data
             = ((ScoreView (vibes_score r) (signal_of r) (factors r),
                 BarFigure factor_names (List.map snd (factors r)),
                 ScatterFigure trend), data'))
  /\ (forall msg : string,
        snd (calculate_vibes tkr env) = Some msg ->
        history env = [] /\ msg = no_data).
Proof.
  split; [| split].
  - intros Hempty. unfold update_dashboard.
    now rewrite (calculate_vibes_empty tkr env Hempty).
  - intros Hne. destruct (calculate_vibes_nonempty tkr env Hne) as (b & Hlast & Hcall).
    exists (score tkr env b). split; [exact Hcall |].
    unfold update_dashboard. rewrite Hcall. unfold score.
    destruct (get_sentiment_scores (reddit env) (finviz env)) as [rs fs].
    cbn [ticker factors signal_of vibes_score List.map fst].
    repeat split; eauto.
  - intros msg. unfold calculate_vibes.
    destruct (last (history env)) as [b |] eqn:E; cbn; [discriminate |].
    intros [= <-]. split; [| reflexivity]. now apply last_None.
Qed.

Lemma no_history_is_the_only_failure_witness :
  update_dashboard "NVDA" (failing []) ∅
    = ((ErrorText no_data, EmptyFigure, EmptyFigure), ∅)
  /\ exists r : result, calculate_vibes "NVDA" (failing [sample_bar 1]) = (Some r, None).
Proof.
  split.
  - apply (no_history_is_the_only_failure "NVDA" (failing []) ∅). reflexivity.
  - destruct (no_history_is_the_only_failure "NVDA" (failing [sample_bar 1]) ∅)
      as (_ & Hok & _).
    destruct Hok as (r & Hcall & _); [discriminate |]. eauto.
Defined.

(** ** The history store *)

Lemma update_dashboard_store (tkr : string) (env : providers) (data : store)
    (r : result) :
  calculate_vibes tkr env = (Some r, None) ->
  snd (update_dashboard tkr env data)
  = <[ticker r := default [] (data !! ticker r) ++ [(date r, vibes_score r)]]> data.
Proof.
  intros Hcall. unfold update_dashboard. rewrite Hcall. cbn [snd].
  destruct (data !! ticker r) as [old |] eqn:E.
  - now rewrite E.
  - rewrite lookup_insert_eq. cbn [default]. now rewrite insert_insert_eq.
Qed.

(** C9.  A successful call appends exactly one entry, the pair of the
    result's date and score, at the end of the history list of the
    result's ticker; the entries already there and the lists of all other
    tickers stay as they were.  A call that reports the no-data error
    leaves the store unchanged. *)
Theorem history_append (tkr : string) (env : providers) (data : store) :
  (forall r : result,
      calculate_vibes tkr env = (Some r, None) ->
      snd (update_dashboard tkr env data) !! ticker r
      = Some (default [] (data !! ticker r) ++ [(date r, vibes_score r)])
      /\ forall k : string,
           k <> ticker r -> snd (update_dashboard tkr env data) !! k = data !! k)
  /\ (forall msg : string,
        snd (calculate_vibes tkr env) = Some msg ->
        snd (update_dashboard tkr env data) = data).
Proof.
  split.
  - intros r Hcall. rewrite (update_dashboard_store _ _ _ _ Hcall). split.
    + apply lookup_insert_eq.
    + intros k Hk. now apply lookup_insert_ne.
  - intros msg Hmsg. unfold update_dashboard.
    destruct (calculate_vibes tkr env) as [res [e |]]; [| discriminate].
    now destruct res.
Qed.

Lemma history_append_witness :
  let r := score "nvda" healthy (sample_bar 5) in
  let data : store := {[ "NVDA"%string := [(4%Z, Fin 0.5)] ]} in
  snd (update_dashboard "nvda" healthy data) !! ticker r
  = Some (default [] (data !! ticker r) ++ [(date r, vibes_score r)])
  /\ snd (update_dashboard "NVDA" (failing []) data) = data.
Proof.
  intros r data.
  destruct (history_append "nvda" healthy data) as [Hok _].
  destruct (history_append "NVDA" (failing []) data) as [_ Herr].
  split.
  - apply (Hok r). reflexivity.
  - apply (Herr no_data). reflexivity.
Defined.

(** ** Letter case *)

Lemma upper_lower_ascii (a : ascii) :
  is_upper_letter a = true -> upper_ascii (lower_ascii a) = upper_ascii a.
Proof.
  destruct a as [[] [] [] [] [] [] [] []]; vm_compute; intros; congruence.
Qed.

Lemma upper_upper_ascii (a : ascii) : upper_ascii (upper_ascii a) = upper_ascii a.
Proof.
  destruct a as [[] [] [] [] [] [] [] []]; vm_compute; reflexivity.
Qed.

Lemma same_letter_upper (a b : ascii) :
  same_letter a b = true -> upper_ascii a = upper_ascii b.
Proof.
  unfold same_letter. intros H.
  apply orb_prop in H as [H | H]; [apply orb_prop in H as [H | H] |].
  - apply Ascii.eqb_eq in H. now subst.
  - apply andb_prop in H as [Hu H]. apply Ascii.eqb_eq in H. subst b.
    symmetry. now apply upper_lower_ascii.
  - apply andb_prop in H as [Hl H]. apply Ascii.eqb_eq in H. subst b.
    symmetry. apply upper_upper_ascii.
Qed.

Lemma differ_only_in_case_upper (s t : string) :
  differ_only_in_case s t = true -> upper s = upper t.
Proof.
  revert t. induction s as [| a s IH]; intros [| b t]; cbn; try easy.
  intros H. apply andb_prop in H as [Hab Hst].
  now rewrite (same_letter_upper _ _ Hab), (IH _ Hst).
Qed.

(** C10.  The history is keyed by the upper-cased ticker of the result.
    Two successful calls whose inputs differ only in letter case have the
    same key, and the second call appends to the list the first one
    appended to; no other key is touched. *)
Theorem history_keyed_by_upper_ticker
    (s t : string) (env1 env2 : providers) (data : store) (r1 r2 : result) :
  differ_only_in_case s t = true ->
  calculate_vibes s env1 = (Some r1, None) ->
  calculate_vibes t env2 = (Some r2, None) ->
  let data1 := snd (update_dashboard s env1 data) in
  let data2 := snd (update_dashboard t env2 data1) in
  ticker r1 = upper s
  /\ ticker r2 = upper s
  /\ data2 !! upper s
     = Some (default [] (data !! upper s)
             ++ [(date r1, vibes_score r1); (date r2, vibes_score r2)])
  /\ forall k : string, k <> upper s -> data2 !! k = data !! k.
Proof.
  intros Hcase H1 H2 data1 data2.
  assert (Ht1 : ticker r1 = upper s).
  { apply calculate_vibes_ok in H1 as (b & _ & ->). unfold score.
    now destruct (get_sentiment_scores (reddit env1) (finviz env1)). }
  assert (Ht2 : ticker r2 = upper s).
  { apply calculate_vibes_ok in H2 as (b & _ & ->). unfold score.
    destruct (get_sentiment_scores (reddit env2) (finviz env2)). cbn.
    symmetry. now apply differ_only_in_case_upper. }
  split; [exact Ht1 |]. split; [exact Ht2 |].
  unfold data2, data1.
  rewrite (update_dashboard_store _ _ _ _ H2), (update_dashboard_store _ _ _ _ H1).
  rewrite Ht1, Ht2. split.
  - rewrite !lookup_insert_eq. cbn [default id]. now rewrite <- app_assoc.
  - intros k Hk. now rewrite !lookup_insert_ne by congruence.
Qed.

Lemma history_keyed_by_upper_ticker_witness :
  let r1 := score "nvda" healthy (sample_bar 5) in
  let r2 := score "NvDA" (failing week) (sample_bar 5) in
  let data : store := ∅ in
  snd (update_dashboard "NvDA" (failing week)
         (snd (update_dashboard "nvda" healthy data))) !! upper "nvda"
  = Some (default [] (data !! upper "nvda")
          ++ [(date r1, vibes_score r1); (date r2, vibes_score r2)]).
Proof.
  intros r1 r2 data.
  apply (history_keyed_by_upper_ticker "nvda" "NvDA" healthy (failing week) data r1 r2);
    reflexivity.
Defined.

End VibesSpec.

(* ===================================================================== *)
(** * The growth projector: further properties *)
(* ===================================================================== *)

Module ProjectionMore.
Import PyNum PyNumFacts Projection ProjectionSpec.
Local Open Scope Q_scope.

Section Inputs.

Variables (base_salary bonus_pct bonus_tax raise_pct : Q).
Variables (monthly_investment0 growth_rate : Q).

Abbreviation run :=
  (run_years base_salary bonus_pct bonus_tax raise_pct monthly_investment0 growth_rate).
Abbreviation rows :=
  (update_projection base_salary bonus_pct bonus_tax raise_pct
     monthly_investment0 growth_rate).

Lemma years_of_records (k : nat) :
  List.map Year (records (run (Z.of_nat k))) = py_range 1 (Z.of_nat k + 1).
Proof.
  induction k as [| k IH].
  - rewrite run_years_nonpos by lia. reflexivity.
  - rewrite run_years_succ, body_records, List.map_app, IH, py_range_snoc.
    reflexivity.
Qed.

Lemma salary_closed (k : nat) :
  salary (run (Z.of_nat k)) == base_salary * (1 + raise_pct) ^ Z.of_nat k.
Proof.
  induction k as [| k IH].
  - rewrite run_years_nonpos by lia.
    change ((1 + raise_pct) ^ Z.of_nat 0) with 1. cbn [init_state salary]. ring.
  - rewrite run_years_succ. cbn [loop_body salary]. rewrite IH.
    rewrite Nat2Z.inj_succ, <- Z.add_1_r, Qpower_plus' by lia.
    rewrite Qpower_1_r. ring.
Qed.

Lemma monthly_constant (k : nat) :
  raise_pct == 0 -> monthly_investment (run (Z.of_nat k)) == monthly_investment0.
Proof.
  intros Hr. rewrite monthly_investment_closed, Hr. unfold Qdiv. ring.
Qed.

Lemma salary_constant (k : nat) :
  raise_pct == 0 -> salary (run (Z.of_nat k)) == base_salary.
Proof.
  intros Hr. rewrite salary_closed, Hr.
  assert (H1 : 1 + 0 == 1) by ring. rewrite H1, Qpower_1. ring.
Qed.

Lemma annuity_nat (k : nat) :
  raise_pct == 0 ->
  portfolio_value (run (Z.of_nat k)) * growth_rate
  == (monthly_investment0 * 12 + base_salary * bonus_pct * (1 - bonus_tax))
     * (1 + growth_rate) * ((1 + growth_rate) ^ Z.of_nat k - 1).
Proof.
  intros Hr. induction k as [| k IH].
  - rewrite run_years_nonpos by lia.
    change ((1 + growth_rate) ^ Z.of_nat 0) with 1.
    cbn [init_state portfolio_value]. ring.
  - rewrite run_years_succ. cbn [loop_body portfolio_value].
    rewrite (monthly_constant k Hr), (salary_constant k Hr).
    rewrite Nat2Z.inj_succ, <- Z.add_1_r, Qpower_plus' by lia.
    rewrite Qpower_1_r.
    set (p := portfolio_value (run (Z.of_nat k))) in *.
    set (T := monthly_investment0 * 12 + base_salary * bonus_pct * (1 - bonus_tax)) in *.
    set (G := (1 + growth_rate) ^ Z.of_nat k) in *.
    transitivity ((p * growth_rate + T * growth_rate) * (1 + growth_rate)); [ring |].
    rewrite IH. ring.
Qed.

Lemma no_growth_nat (k : nat) :
  raise_pct == 0 -> growth_rate == 0 ->
  portfolio_value (run (Z.of_nat k))
  == inject_Z (Z.of_nat k)
     * (monthly_investment0 * 12 + base_salary * bonus_pct * (1 - bonus_tax)).
Proof.
  intros Hr Hg. induction k as [| k IH].
  - rewrite run_years_nonpos by lia. cbn. ring.
  - rewrite run_years_succ. cbn [loop_body portfolio_value].
    rewrite (monthly_constant k Hr), (salary_constant k Hr), IH, Hg.
    rewrite Nat2Z.inj_succ, <- Z.add_1_r, inject_Z_plus.
    change (inject_Z 1) with 1. ring.
Qed.

End Inputs.

(** X1.  For [years >= 1] the callback returns a chart and a table drawn
    from one row per year, [years] rows whose [Year] column counts
    1, 2, ..., [years]; the chart plots the year and the portfolio value of
    each row.  For [years <= 0] there is no row and the callback raises. *)
Theorem projection_rows_and_years
    (base_salary bonus_pct bonus_tax raise_pct monthly_investment0 growth_rate : Q)
    (years : Z) :
  let rows := update_projection base_salary bonus_pct bonus_tax raise_pct
                monthly_investment0 growth_rate years in
  let outcome := projection_callback base_salary bonus_pct bonus_tax raise_pct
                   monthly_investment0 growth_rate years in
  ((1 <= years)%Z ->
     outcome = Some (List.map (fun r => (Year r, Portfolio_Value r)) rows, rows)
     /\ length rows = Z.to_nat years
     /\ List.map Year rows = List.map Z.of_nat (seq 1 (Z.to_nat years)))
  /\ ((years <= 0)%Z -> outcome = None).
Proof.
  intros rows outcome. split.
  - intros Hy.
    assert (Hlen : length rows = Z.to_nat years) by apply rows_length.
    split; [| split; [exact Hlen |]].
    + unfold outcome, projection_callback. fold rows.
      destruct rows as [| r rows']; [cbn in Hlen; lia | reflexivity].
    + unfold rows, update_projection.
      rewrite <- (Z2Nat.id years) at 1 by lia. rewrite years_of_records.
      unfold py_range. replace (Z.to_nat (Z.of_nat (Z.to_nat years) + 1 - 1))
        with (Z.to_nat years) by lia.
      rewrite <- seq_shift, List.map_map. apply List.map_ext. intros i. lia.
  - intros Hy. unfold outcome, projection_callback, update_projection.
    now rewrite run_years_nonpos by lia.
Qed.

Lemma projection_rows_and_years_witness :
  length (update_projection 250000 0.40 0.35 0.04 2000 0.15 10) = Z.to_nat 10
  /\ projection_callback 250000 0.40 0.35 0.04 2000 0.15 0 = None.
Proof.
  destruct (projection_rows_and_years 250000 0.40 0.35 0.04 2000 0.15 10)
    as [Hrows _].
  destruct (projection_rows_and_years 250000 0.40 0.35 0.04 2000 0.15 0)
    as [_ Hraise].
  split; [apply Hrows; lia | apply Hraise; lia].
Defined.

(** X2.  The rows of the early years do not depend on the horizon: a
    projection over [years1] years is the first [years1] rows of any longer
    projection with the same inputs. *)
Theorem projection_prefix
    (base_salary bonus_pct bonus_tax raise_pct monthly_investment0 growth_rate : Q)
    (years1 years2 : Z) :
  (years1 <= years2)%Z ->
  update_projection base_salary bonus_pct bonus_tax raise_pct
    monthly_investment0 growth_rate years1
  = take (Z.to_nat years1)
      (update_projection base_salary bonus_pct bonus_tax raise_pct
         monthly_investment0 growth_rate years2).
Proof.
  intros Hle. apply list_eq. intros i.
  destruct (decide (i < Z.to_nat years1)%nat) as [Hi | Hi].
  - rewrite lookup_take_lt by exact Hi. now rewrite !rows_lookup by lia.
  - rewrite lookup_take_ge by lia. apply lookup_ge_None.
    rewrite rows_length. lia.
Qed.

Lemma projection_prefix_witness :
  (3 <= 10)%Z
  /\ update_projection 250000 0.40 0.35 0.04 2000 0.15 3
     = take (Z.to_nat 3) (update_projection 250000 0.40 0.35 0.04 2000 0.15 10).
Proof.
  split; [lia |].
  apply (projection_prefix 250000 0.40 0.35 0.04 2000 0.15 3 10). lia.
Defined.



(** X4.  Without raises the yearly investment
    [T = monthly_investment*12 + base_salary*bonus_pct*(1-bonus_tax)] is
    constant and the carried portfolio value [P] after [n] years is the
    value of an annuity paid at the start of each year:
    [P * growth_rate = T * (1+growth_rate) * ((1+growth_rate)^n - 1)];
    with no growth either, [P = n * T]. *)
Theorem constant_investment_annuity
    (base_salary bonus_pct bonus_tax raise_pct monthly_investment0 growth_rate : Q)
    (n : Z) :
  raise_pct == 0 ->
  (0 <= n)%Z ->
  let T := monthly_investment0 * 12 + base_salary * bonus_pct * (1 - bonus_tax) in
  let P := portfolio_value
             (run_years base_salary bonus_pct bonus_tax raise_pct
                monthly_investment0 growth_rate n) in
  P * growth_rate == T * (1 + growth_rate) * ((1 + growth_rate) ^ n - 1)
  /\ (growth_rate == 0 -> P == inject_Z n * T).
Proof.
  intros Hr Hn T P. unfold P, T.
  rewrite <- (Z2Nat.id n) by lia. split.
  - now apply annuity_nat.
  - intros Hg. now apply no_growth_nat.
Qed.

Lemma constant_investment_annuity_witness :
  portfolio_value (run_years 250000 0.40 0.35 0 2000 0.15 10) * 0.15
  == (2000 * 12 + 250000 * 0.40 * (1 - 0.35)) * (1 + 0.15) * ((1 + 0.15) ^ 10 - 1)
  /\ portfolio_value (run_years 250000 0.40 0.35 0 2000 0 10)
     == inject_Z 10 * (2000 * 12 + 250000 * 0.40 * (1 - 0.35)).
Proof.
  split.
  - apply (constant_investment_annuity 250000 0.40 0.35 0 2000 0.15 10);
      [reflexivity | lia].
  - apply (constant_investment_annuity 250000 0.40 0.35 0 2000 0 10);
      [reflexivity | lia | reflexivity].
Defined.

(** X5.  With non-negative inputs (and a bonus tax rate of at most 1) every
    row shows a portfolio value that is at least the total invested in
    that year. *)
Theorem value_covers_investment
    (base_salary bonus_pct bonus_tax raise_pct monthly_investment0 growth_rate : Q)
    (years : Z) :
  0 <= growth_rate -> 0 <= raise_pct -> 0 <= base_salary ->
  0 <= bonus_pct -> 0 <= bonus_tax <= 1 -> 0 <= monthly_investment0 ->
  Forall (fun r => 0 <= Total_Invested r /\ Total_Invested r <= Portfolio_Value r)
    (update_projection base_salary bonus_pct bonus_tax raise_pct
       monthly_investment0 growth_rate years).
Proof.
  intros Hg Hr Hs Hb Ht Hm. apply Forall_lookup. intros i r Hi.
  assert (Hlen : (i < Z.to_nat years)%nat).
  { rewrite <- (rows_length base_salary bonus_pct bonus_tax raise_pct
                  monthly_investment0 growth_rate).
    apply lookup_lt_is_Some. eauto. }
  rewrite rows_lookup in Hi by lia. injection Hi as <-.
  destruct (state_nonneg base_salary bonus_pct bonus_tax raise_pct
              monthly_investment0 growth_rate Hg Hr Hs Hb Ht Hm i) as (Hs' & Hp' & Hm').
  cbn [Total_Invested Portfolio_Value year_row].
  set (st := run_years _ _ _ _ _ _ _) in *.
  assert (Hbonus : 0 <= salary st * bonus_pct * (1 - bonus_tax)).
  { repeat apply Qmult_le_0_compat; lra. }
  set (x := salary st * bonus_pct * (1 - bonus_tax)) in *.
  assert (Hgrow : 0 <= (portfolio_value st + (monthly_investment st * 12 + x))
                       * growth_rate).
  { apply Qmult_le_0_compat; lra. }
  split.
  - apply Qle_trans with (round2 0); [vm_compute; discriminate |].
    apply round2_mono. lra.
  - apply round2_mono. lra.
Qed.

Lemma value_covers_investment_witness :
  Forall (fun r => 0 <= Total_Invested r /\ Total_Invested r <= Portfolio_Value r)
    (update_projection 250000 0.40 0.35 0.04 2000 0.15 10).
Proof.
  apply (value_covers_investment 250000 0.40 0.35 0.04 2000 0.15 10);
    try split; vm_compute; discriminate.
Defined.

End ProjectionMore.

(* ===================================================================== *)
(** * The VIBES scorer: further properties *)
(* ===================================================================== *)

Module VibesMore.
Import PyNum PyNumFacts Vibes VibesSpec.
Local Open Scope Q_scope.

(** ** Breadth *)

(** X6.  [get_breadth_factor] always lies in [0,1].  It is 0.5 whenever
    the page yields no count; for a count [c] it is [c/500], cut to 0 for
    [c <= 0] and to 1 for [c >= 500]. *)
Theorem breadth_factor_values (page : breadth_page) :
  in_unit (get_breadth_factor page)
  /\ ((forall c, page <> BreadthTotal c) -> get_breadth_factor page = Fin 0.5)
  /\ (forall c : Z,
        page = BreadthTotal c ->
        ((c <= 0)%Z -> feq (get_breadth_factor page) (Fin 0))
        /\ ((0 <= c <= 500)%Z ->
            feq (get_breadth_factor page) (Fin (inject_Z c / 500)))
        /\ ((500 <= c)%Z -> feq (get_breadth_factor page) (Fin 1))).
Proof.
  split; [apply breadth_factor_in_unit |]. split.
  - intros Hno. destruct page as [| | | c]; try reflexivity. now destruct (Hno c).
  - intros c ->. unfold get_breadth_factor, breadth_body, try_except, of_Z.
    rewrite fdiv_literal by reflexivity.
    assert (Hc : forall z : Z, (c <= z)%Z -> inject_Z c <= inject_Z z)
      by (intros z Hz; now rewrite <- Zle_Qle).
    assert (Hc' : forall z : Z, (z <= c)%Z -> inject_Z z <= inject_Z c)
      by (intros z Hz; now rewrite <- Zle_Qle).
    unfold py_max.
    destruct (flt (Fin (inject_Z c / 500)) (Fin 0)) eqn:E0;
      [apply flt_true in E0 | apply flt_false in E0];
      unfold py_min;
      match goal with |- context [flt (Fin 1) ?x] =>
        destruct (flt (Fin 1) x) eqn:E1;
          [apply flt_true in E1 | apply flt_false in E1]
      end;
      (split; [| split]); intros H; cbn [feq];
      try (specialize (Hc _ (proj2 H))); try (specialize (Hc' _ (proj1 H)));
      try (specialize (Hc 0%Z H)); try (specialize (Hc' 500%Z H));
      change (inject_Z 0) with 0 in *; change (inject_Z 500) with 500 in *;
      div_to_mul; lra.
Qed.

Lemma breadth_factor_values_witness :
  get_breadth_factor BreadthNoCountText = Fin 0.5
  /\ feq (get_breadth_factor (BreadthTotal 320)) (Fin (inject_Z 320 / 500))
  /\ feq (get_breadth_factor (BreadthTotal 503)) (Fin 1)
  /\ feq (get_breadth_factor (BreadthTotal (-3))) (Fin 0).
Proof.
  destruct (breadth_factor_values BreadthNoCountText) as (_ & Hnone & _).
  destruct (breadth_factor_values (BreadthTotal 320)) as (_ & _ & Hmid).
  destruct (breadth_factor_values (BreadthTotal 503)) as (_ & _ & Hhigh).
  destruct (breadth_factor_values (BreadthTotal (-3))) as (_ & _ & Hlow).
  split; [apply Hnone; discriminate |].
  split; [apply (Hmid 320%Z eq_refl); lia |].
  split; [apply (Hhigh 503%Z eq_refl); lia |].
  apply (Hlow (-3)%Z eq_refl); lia.
Defined.

(** ** Sentiment *)

(** X7.  The mention score is [n/1000] up to 1000 mentions and exactly 1
    from 1000 mentions on; it is 0.5 when the page has no usable count.  It
    does not depend on the Finviz page. *)
Theorem mention_score_values (page : reddit_page) (f : finviz_page) :
  let reddit_score := fst (get_sentiment_scores page f) in
  ((forall n, page <> RedditMentions n) -> reddit_score = Fin 0.5)
  /\ (forall n : Z,
        page = RedditMentions n ->
        ((n <= 1000)%Z -> feq reddit_score (Fin (inject_Z n / 1000)))
        /\ ((1000 <= n)%Z -> feq reddit_score (Fin 1))).
Proof.
  cbn [get_sentiment_scores fst]. split.
  - intros Hno. destruct page as [| | | n]; try reflexivity. now destruct (Hno n).
  - intros n ->. unfold reddit_body, try_except, of_Z.
    rewrite fdiv_literal by reflexivity. unfold py_min.
    destruct (flt (Fin (inject_Z n / 1000)) (Fin 1)) eqn:E;
      [apply flt_true in E | apply flt_false in E];
      split; intros H; cbn [feq]; rewrite Zle_Qle in H;
      change (inject_Z 1000) with 1000 in H; div_to_mul; lra.
Qed.

Lemma mention_score_values_witness :
  fst (get_sentiment_scores RedditNoMentions FinvizRaises) = Fin 0.5
  /\ feq (fst (get_sentiment_scores (RedditMentions 250) FinvizRaises))
         (Fin (inject_Z 250 / 1000))
  /\ feq (fst (get_sentiment_scores (RedditMentions 4321) FinvizRaises)) (Fin 1).
Proof.
  destruct (mention_score_values RedditNoMentions FinvizRaises) as (Hnone & _).
  destruct (mention_score_values (RedditMentions 250) FinvizRaises) as (_ & Hlow).
  destruct (mention_score_values (RedditMentions 4321) FinvizRaises) as (_ & Hhigh).
  split; [apply Hnone; discriminate |].
  split; [apply (Hlow 250%Z eq_refl); lia | apply (Hhigh 4321%Z eq_refl); lia].
Defined.

(** X8.  With a news table the headline score is
    [pos / (pos + neg + 1)]: at least 0, strictly below 1, 0 when no
    headline counts as positive (in particular for an empty table) and
    positive otherwise; it equals 0.5 exactly when the positive headlines
    outnumber the negative ones by one.  A missing table, a row without a
    link and a failed request give 0.5. *)
Theorem headline_score_values (r : reddit_page) (hs : list string) :
  (exists q : Q,
      snd (get_sentiment_scores r (FinvizNews hs)) = Fin q
      /\ 0 <= q < 1
      /\ (count_where is_positive_headline hs = 0%Z -> q == 0)
      /\ ((0 < count_where is_positive_headline hs)%Z -> 0 < q)
      /\ (q == 1 # 2 <->
          count_where is_positive_headline hs
          = (count_where is_negative_headline hs + 1)%Z))
  /\ feq (snd (get_sentiment_scores r (FinvizNews []))) (Fin 0)
  /\ snd (get_sentiment_scores r FinvizNoTable) = Fin 0.5
  /\ snd (get_sentiment_scores r FinvizRaises) = Fin 0.5
  /\ snd (get_sentiment_scores r FinvizRowWithoutLink) = Fin 0.5.
Proof.
  split; [| repeat split].
  cbn [get_sentiment_scores snd]. unfold finviz_body, try_except, of_Z.
  pose proof (count_where_nonneg is_positive_headline hs) as Hp.
  pose proof (count_where_nonneg is_negative_headline hs) as Hn.
  set (pos := count_where is_positive_headline hs) in *.
  set (neg := count_where is_negative_headline hs) in *.
  assert (Hd : 0 < inject_Z (pos + neg + 1)) by (rewrite <- (Zlt_Qlt 0); lia).
  rewrite fdiv_literal by now apply Qeq_bool_pos.
  eexists. split; [reflexivity |]. split; [split |]; [| | split; [| split]].
  - apply Qdiv_nonneg; [rewrite <- (Zle_Qle 0); lia | lra].
  - apply Qlt_shift_div_r; [exact Hd |]. rewrite Qmult_1_l, <- Zlt_Qlt. lia.
  - intros ->. unfold Qdiv. ring.
  - intros Hpos. apply Qlt_shift_div_l; [exact Hd |].
    rewrite Qmult_0_l, <- (Zlt_Qlt 0). exact Hpos.
  - assert (Hmul : inject_Z pos
                   == inject_Z pos / inject_Z (pos + neg + 1) * inject_Z (pos + neg + 1)).
    { field. intros H0. rewrite H0 in Hd. now apply Qlt_irrefl in Hd. }
    split.
    + intros Hhalf. rewrite Hhalf in Hmul. clear Hhalf.
      assert (H2 : inject_Z (2 * pos) == inject_Z (pos + neg + 1)).
      { rewrite inject_Z_mult. change (inject_Z 2) with 2.
        rewrite Hmul at 1. ring. }
      apply (proj1 (inject_Z_injective _ _)) in H2. lia.
    + intros Heq.
      assert (H2 : inject_Z (pos + neg + 1) == 2 * inject_Z pos).
      { replace (pos + neg + 1)%Z with (2 * pos)%Z by lia.
        rewrite inject_Z_mult. reflexivity. }
      apply Qmult_inj_r with (z := inject_Z (pos + neg + 1));
        [intros H0; rewrite H0 in Hd; now apply Qlt_irrefl in Hd |].
      rewrite <- Hmul. rewrite H2. ring.
Qed.

Lemma headline_score_values_witness :
  exists q : Q,
    snd (get_sentiment_scores RedditRaises
           (FinvizNews ["Analyst upgrade"]%string)) = Fin q
    /\ 0 < q
    /\ q == 1 # 2.
Proof.
  destruct (headline_score_values RedditRaises ["Analyst upgrade"]%string)
    as ((q & Hq & _ & _ & Hpos & Hhalf) & _).
  exists q. split; [exact Hq |].
  split; [apply Hpos; reflexivity | apply Hhalf; reflexivity].
Defined.

(** ** Letter case of headlines *)

Lemma lower_lower_ascii (a : ascii) : lower_ascii (lower_ascii a) = lower_ascii a.
Proof. destruct a as [[] [] [] [] [] [] [] []]; vm_compute; reflexivity. Qed.

Lemma lower_upper_ascii (a : ascii) : lower_ascii (upper_ascii a) = lower_ascii a.
Proof. destruct a as [[] [] [] [] [] [] [] []]; vm_compute; reflexivity. Qed.

Lemma same_letter_lower (a b : ascii) :
  same_letter a b = true -> lower_ascii a = lower_ascii b.
Proof.
  unfold same_letter. intros H.
  apply orb_prop in H as [H | H]; [apply orb_prop in H as [H | H] |].
  - apply Ascii.eqb_eq in H. now subst.
  - apply andb_prop in H as [_ H]. apply Ascii.eqb_eq in H. subst b.
    symmetry. apply lower_lower_ascii.
  - apply andb_prop in H as [_ H]. apply Ascii.eqb_eq in H. subst b.
    symmetry. apply lower_upper_ascii.
Qed.

Lemma differ_only_in_case_lower (s t : string) :
  differ_only_in_case s t = true -> lower s = lower t.
Proof.
  revert t. induction s as [| a s IH]; intros [| b t]; cbn; try easy.
  intros H. apply andb_prop in H as [Hab Hst].
  now rewrite (same_letter_lower _ _ Hab), (IH _ Hst).
Qed.

(** X9.  The keyword tests ignore letter case: two headlines that differ
    only in letter case are both positive or both not, and both negative
    or both not. *)
Theorem headline_keywords_ignore_case (h h' : string) :
  differ_only_in_case h h' = true ->
  is_positive_headline h = is_positive_headline h'
  /\ is_negative_headline h = is_negative_headline h'.
Proof.
  intros H. unfold is_positive_headline, is_negative_headline.
  now rewrite (differ_only_in_case_lower _ _ H).
Qed.

Lemma headline_keywords_ignore_case_witness :
  is_positive_headline "Company BEATS estimates"
  = is_positive_headline "company beats Estimates"
  /\ is_negative_headline "Company BEATS estimates"
     = is_negative_headline "company beats Estimates".
Proof.
  apply (headline_keywords_ignore_case "Company BEATS estimates"
           "company beats Estimates").
  reflexivity.
Defined.

(** ** Volatility *)





(** X11.  When implied volatility is not available and the price history
    has fewer than five rows, the five-row rolling mean does not exist:
    the Volatility factor and the score are NaN and the signal is
    Bearish. *)
Theorem short_history_gives_nan (tkr : string) (env : providers) (r : result) :
  calculate_vibes tkr env = (Some r, None) ->
  (length (history env) < 5)%nat ->
  iv_body (option_chain env) = None ->
  dict_get "Volatility" (factors r) = Some NaN
  /\ vibes_score r = NaN
  /\ signal_of r = Bearish.
Proof.
  intros Hcall Hlen Hiv. apply calculate_vibes_ok in Hcall as (b & Hlast & ->).
  assert (Hv : volatility_factor (history env) (option_chain env) = NaN).
  { unfold volatility_factor, iv_fallback, rolling_mean_last.
    rewrite Hiv, List.length_map. cbn [try_except].
    now replace (length (history env) <? 5)%nat with true
      by (symmetry; apply Nat.ltb_lt; lia). }
  unfold score. rewrite Hv.
  destruct (get_sentiment_scores (reddit env) (finviz env)) as [rs fs].
  cbn [factors vibes_score signal_of]. split; [reflexivity |].
  destruct (volume_factor (history env) b); cbn; repeat split.
Qed.

Lemma short_history_gives_nan_witness :
  vibes_score (score "NVDA" (failing [sample_bar 1; sample_bar 2]) (sample_bar 2)) = NaN.
Proof.
  apply (short_history_gives_nan "NVDA" (failing [sample_bar 1; sample_bar 2]));
    [reflexivity | cbn; lia | reflexivity].
Defined.

(** ** The score *)

Lemma mean_of_unit_values (a b c d e : pyfloat) :
  in_unit a -> in_unit b -> in_unit c -> in_unit d -> in_unit e ->
  in_unit (fdiv (fadd (fadd (fadd (fadd a b) c) d) e) (Fin 5)).
Proof.
  destruct a, b, c, d, e; try easy. cbn [in_unit fadd]. intros.
  rewrite fdiv_literal by reflexivity. cbn [in_unit]. div_to_mul. lra.
Qed.

(** X12.  Under the conditions that keep the five factors in [0,1]
    (non-negative volumes, implied volatilities and mention count; five
    price rows with [Low <= High] and a positive [Close] when the
    historical range is used) the score itself lies in [0,1]. *)
Theorem vibes_score_in_unit (tkr : string) (env : providers) (r : result) :
  calculate_vibes tkr env = (Some r, None) ->
  volumes_nonneg env ->
  ivs_nonneg env ->
  (iv_body (option_chain env) = None -> five_price_rows (history env)) ->
  mentions_nonneg env ->
  in_unit (vibes_score r).
Proof.
  intros Hcall Hvol Hiv Hrows Hment.
  apply calculate_vibes_ok in Hcall as (b & Hlast & ->). unfold score.
  pose proof (sentiment_factor_in_unit (reddit env) (finviz env) Hment) as Hsent.
  destruct (get_sentiment_scores (reddit env) (finviz env)) as [rs fs].
  cbn [vibes_score]. apply mean_of_unit_values.
  - now apply volume_factor_in_unit.
  - now apply volatility_factor_in_unit.
  - apply earnings_factor_in_unit.
  - apply breadth_factor_in_unit.
  - exact Hsent.
Qed.

Lemma vibes_score_in_unit_witness :
  in_unit (vibes_score (score "nvda" healthy (sample_bar 5))).
Proof.
  apply (vibes_score_in_unit "nvda" healthy).
  - reflexivity.
  - unfold volumes_nonneg. cbn. repeat constructor; discriminate.
  - unfold ivs_nonneg. cbn. repeat constructor; discriminate.
  - discriminate.
  - cbn. lia.
Defined.

(** ** Earnings and volume *)

(** X13.  For an earnings date [k] whole days (plus less than a day) after
    the last row of the history, the Earnings factor is
    [max(0, 10 - |k|) / 10]: 1 on the day itself, falling by 0.1 per day
    of distance on either side, and 0 from ten days on. *)
Theorem earnings_factor_by_days (today k s : Z) :
  (0 <= s < seconds_per_day)%Z ->
  let f := earnings_factor_of (CalDate (today + k * seconds_per_day + s)) today in
  f = Fin (inject_Z (Z.max 0 (10 - Z.abs k)) / 10)
  /\ (k = 0%Z -> feq f (Fin 1))
  /\ ((10 <= Z.abs k)%Z -> feq f (Fin 0)).
Proof.
  intros Hs f.
  assert (Hdays : days_between (today + k * seconds_per_day + s) today = k).
  { unfold days_between.
    replace (today + k * seconds_per_day + s - today)%Z
      with (k * seconds_per_day + s)%Z by lia.
    rewrite Z.div_add_l by (unfold seconds_per_day; lia).
    rewrite Z.div_small by lia. lia. }
  assert (Hf : f = Fin (inject_Z (Z.max 0 (10 - Z.abs k)) / 10)).
  { unfold f, earnings_factor_of, earnings_body, try_except, of_Z.
    rewrite Hdays. now rewrite fdiv_literal by reflexivity. }
  split; [exact Hf |]. rewrite Hf. split.
  - intros ->. reflexivity.
  - intros Hk. now replace (Z.max 0 (10 - Z.abs k)) with 0%Z by lia.
Qed.

Lemma earnings_factor_by_days_witness :
  earnings_factor_of (CalDate (day 5 + 3 * seconds_per_day + 3600)) (day 5)
  = Fin (inject_Z (Z.max 0 (10 - Z.abs 3)) / 10).
Proof.
  apply (earnings_factor_by_days (day 5) 3 3600). unfold seconds_per_day. lia.
Defined.

(** X14.  When the mean volume [avg] of the last 20 rows is positive, the
    Volume factor is half the ratio of the last volume to that mean, and
    exactly 1 as soon as the last volume is at least twice the mean. *)
Theorem volume_factor_values (hist : list bar) (b : bar) (avg : Q) :
  last hist = Some b ->
  feq (mean (List.map (fun b0 : bar => of_Z (Volume b0)) (last_n 20 hist))) (Fin avg) ->
  0 < avg ->
  (inject_Z (Volume b) <= 2 * avg ->
     feq (volume_factor hist b) (Fin (inject_Z (Volume b) / avg / 2)))
  /\ (2 * avg <= inject_Z (Volume b) -> feq (volume_factor hist b) (Fin 1)).
Proof.
  intros Hlast Hmean Havg. unfold volume_factor.
  destruct (mean _) as [m |]; [cbn in Hmean | easy].
  assert (Hm : 0 < m) by (rewrite Hmean; exact Havg).
  cbn [truthy]. rewrite (Qeq_bool_pos _ Hm). cbn [negb]. unfold of_Z.
  rewrite (fdiv_literal _ m) by now apply Qeq_bool_pos.
  rewrite fdiv_literal by reflexivity.
  set (v := inject_Z (Volume b)) in *.
  assert (Hratio : v / m == v / avg) by now rewrite Hmean.
  unfold py_min. split; intros Hv.
  - assert (Hle : v / avg <= 2).
    { apply Qle_shift_div_r; [exact Havg | exact Hv]. }
    destruct (flt (Fin 1) (Fin (v / m / 2))) eqn:E;
      [apply flt_true in E | apply flt_false in E]; cbn [feq].
    + rewrite Hratio in E. div_to_mul. lra.
    + now rewrite Hratio.
  - assert (Hge : 2 <= v / avg).
    { apply Qle_shift_div_l; [exact Havg | exact Hv]. }
    destruct (flt (Fin 1) (Fin (v / m / 2))) eqn:E;
      [apply flt_true in E | apply flt_false in E]; cbn [feq].
    + reflexivity.
    + rewrite Hratio in *. div_to_mul. lra.
Qed.

Lemma volume_factor_values_witness :
  feq (volume_factor week (sample_bar 5)) (Fin (inject_Z 1000 / 1000 / 2)).
Proof.
  destruct (volume_factor_values week (sample_bar 5) 1000) as [Hlow _];
    [reflexivity | reflexivity | reflexivity |].
  apply Hlow. discriminate.
Defined.

(** ** What the dashboard shows *)

(** X15.  After a successful call the trend figure plots exactly the list
    now stored for the result's ticker, whose last point is the new
    [(date, score)] pair, and the bar figure plots the five factor values
    under their names. *)
Theorem dashboard_shows_stored_history
    (tkr : string) (env : providers) (data : store) (r : result) :
  calculate_vibes tkr env = (Some r, None) ->
  exists trend : list (Z * pyfloat),
    update_dashboard tkr env data
    = ((ScoreView (vibes_score r) (signal_of r) (factors r),
        BarFigure factor_names (List.map snd (factors r)),
        ScatterFigure trend),
       <[ticker r := trend]> data)
    /\ snd (update_dashboard tkr env data) !! ticker r = Some trend
    /\ last trend = Some (date r, vibes_score r)
    /\ length trend = S (length (default [] (data !! ticker r))).
Proof.
  intros Hcall.
  exists (default [] (data !! ticker r) ++ [(date r, vibes_score r)]).
  assert (Hnames : List.map fst (factors r) = factor_names).
  { apply calculate_vibes_ok in Hcall as (b & _ & ->). unfold score.
    now destruct (get_sentiment_scores (reddit env) (finviz env)). }
  assert (Hupd : update_dashboard tkr env data
    = ((ScoreView (vibes_score r) (signal_of r) (factors r),
        BarFigure factor_names (List.map snd (factors r)),
        ScatterFigure (default [] (data !! ticker r) ++ [(date r, vibes_score r)])),
       <[ticker r := default [] (data !! ticker r) ++ [(date r, vibes_score r)]]> data)).
  { unfold update_dashboard. rewrite Hcall, Hnames.
    destruct (data !! ticker r) as [old |] eqn:E.
    - now rewrite E.
    - rewrite lookup_insert_eq. cbn [default]. now rewrite insert_insert_eq. }
  split; [exact Hupd |]. rewrite Hupd. cbn [snd].
  split; [apply lookup_insert_eq |].
  split; [apply last_snoc |]. rewrite length_app. cbn. lia.
Qed.

Lemma dashboard_shows_stored_history_witness :
  exists trend : list (Z * pyfloat),
    snd (update_dashboard "nvda" healthy ∅)
    !! ticker (score "nvda" healthy (sample_bar 5)) = Some trend
    /\ last trend = Some (date (score "nvda" healthy (sample_bar 5)),
                          vibes_score (score "nvda" healthy (sample_bar 5))).
Proof.
  destruct (dashboard_shows_stored_history "nvda" healthy ∅
              (score "nvda" healthy (sample_bar 5)) eq_refl)
    as (trend & _ & Hstored & Hlast & _).
  exists trend. split; assumption.
Defined.

End VibesMore.

(* ===================================================================== *)
(** * Sequences of dashboard callbacks: properties *)
(* ===================================================================== *)

Module SessionSpec.
Import PyNum Vibes VibesSpec Session.

Abbreviation step := (fun (d : store) (c : call) =>
                        snd (update_dashboard (fst c) (snd c) d)).

Lemma step_history (c : call) (d : store) (k : string) :
  history_of (step d c) k
  = history_of d k ++ (if scores_for k c then entry_of c else []).
Proof.
  destruct c as [tkr env]. unfold history_of, scores_for, entry_of. cbn [fst snd].
  destruct (history env) as [| b0 bs] eqn:Eh.
  - unfold update_dashboard. rewrite (calculate_vibes_empty tkr env Eh). cbn.
    now rewrite app_nil_r.
  - assert (Hne : history env <> []) by (rewrite Eh; discriminate).
    destruct (calculate_vibes_nonempty tkr env Hne) as (b & Hlast & Hcall).
    rewrite (update_dashboard_store _ _ _ _ Hcall), Hcall.
    assert (Hk : ticker (score tkr env b) = upper tkr).
    { unfold score. now destruct (get_sentiment_scores (reddit env) (finviz env)). }
    rewrite Hk. destruct (String.eqb_spec (upper tkr) k) as [-> | Hneq].
    + now rewrite lookup_insert_eq.
    + rewrite lookup_insert_ne by exact Hneq. now rewrite app_nil_r.
Qed.

Lemma run_calls_history (calls : list call) (data : store) (k : string) :
  history_of (run_calls calls data) k = history_of data k ++ appended k calls.
Proof.
  unfold run_calls, appended. revert data.
  induction calls as [| c calls IH]; intros data; cbn [fold_left flat_map].
  - now rewrite app_nil_r.
  - rewrite IH, step_history. now rewrite <- app_assoc.
Qed.

Lemma entry_of_length (k : string) (c : call) :
  length (if scores_for k c then entry_of c else [])
  = if scores_for k c then 1%nat else 0%nat.
Proof.
  destruct c as [tkr env]. unfold scores_for, entry_of. cbn [fst snd].
  destruct (history env) as [| b0 bs] eqn:Eh; [reflexivity |].
  assert (Hne : history env <> []) by (rewrite Eh; discriminate).
  destruct (calculate_vibes_nonempty tkr env Hne) as (b & _ & ->).
  now destruct (String.eqb (upper tkr) k).
Qed.

(** X16.  Over any sequence of callbacks the history stored for a ticker
    only grows at its end: it is the list stored before, followed by the
    [(date, score)] pairs of the scoring calls for that ticker, in call
    order.  Nothing stored is ever removed or rewritten, and calls for
    other tickers or calls without price history leave it alone. *)
Theorem session_history (calls : list call) (data : store) (k : string) :
  history_of (run_calls calls data) k = history_of data k ++ appended k calls
  /\ history_of data k `prefix_of` history_of (run_calls calls data) k
  /\ history_of (run_calls calls data) k
     = history_of (run_calls (List.filter (scores_for k) calls) data) k.
Proof.
  split; [apply run_calls_history |]. split.
  - rewrite run_calls_history. now apply prefix_app_r.
  - rewrite !run_calls_history. f_equal. unfold appended.
    induction calls as [| c calls IH]; [reflexivity |]. cbn [flat_map List.filter].
    destruct (scores_for k c) eqn:E; cbn [flat_map]; [rewrite E |]; now rewrite IH.
Qed.

(** X17.  The number of points stored for a ticker is the number stored
    before plus the number of scoring calls made for it (in any letter
    case). *)
Theorem session_history_length (calls : list call) (data : store) (k : string) :
  length (history_of (run_calls calls data) k)
  = (length (history_of data k) + length (List.filter (scores_for k) calls))%nat.
Proof.
  rewrite run_calls_history, length_app. f_equal. unfold appended.
  induction calls as [| c calls IH]; [reflexivity |]. cbn [flat_map List.filter].
  rewrite length_app, entry_of_length, IH.
  now destruct (scores_for k c).
Qed.

Lemma upper_idempotent (s : string) : upper (upper s) = upper s.
Proof.
  induction s as [| a s IH]; [reflexivity |]. cbn. now rewrite upper_upper_ascii, IH.
Qed.

(** X18.  Keys are upper-case: if every key of the store is its own
    upper-cased form, this still holds after any sequence of callbacks, and
    every key then present was present before or is the upper-cased input
    of one of the calls. *)
Theorem session_keys_upper (calls : list call) (data : store) :
  (forall k, is_Some (data !! k) -> upper k = k) ->
  forall k, is_Some (run_calls calls data !! k) ->
    upper k = k
    /\ (is_Some (data !! k) \/ exists c, In c calls /\ k = upper (fst c)).
Proof.
  unfold run_calls. revert data.
  induction calls as [| c calls IH]; intros data Hup k Hk; cbn [fold_left] in Hk.
  - split; [now apply Hup | now left].
  - assert (Hstep : forall k', is_Some (step data c !! k') ->
                      is_Some (data !! k') \/ k' = upper (fst c)).
    { intros k' Hk'. destruct c as [tkr env]. cbn [fst snd] in *.
      destruct (history env) as [| b0 bs] eqn:Eh.
      - unfold update_dashboard in Hk'.
        rewrite (calculate_vibes_empty tkr env Eh) in Hk'. now left.
      - assert (Hne : history env <> []) by (rewrite Eh; discriminate).
        destruct (calculate_vibes_nonempty tkr env Hne) as (b & _ & Hcall).
        rewrite (update_dashboard_store _ _ _ _ Hcall) in Hk'.
        assert (Ht : ticker (score tkr env b) = upper tkr).
        { unfold score. now destruct (get_sentiment_scores (reddit env) (finviz env)). }
        rewrite Ht in Hk'. destruct (decide (upper tkr = k')) as [<- | Hneq].
        + now right.
        + rewrite lookup_insert_ne in Hk' by exact Hneq. now left. }
    destruct (IH (step data c)) with (k := k) as [Hu Hor].
    + intros k' Hk'. destruct (Hstep k' Hk') as [H | ->];
        [now apply Hup | apply upper_idempotent].
    + exact Hk.
    + split; [exact Hu |]. destruct Hor as [H | (c' & Hin & ->)].
      * destruct (Hstep k H) as [H' | ->]; [now left |].
        right. exists c. split; [now left | reflexivity].
      * right. exists c'. split; [now right | reflexivity].
Qed.

Lemma session_keys_upper_witness :
  let calls := [("nvda"%string, healthy); ("crm"%string, failing [])] in
  upper "NVDA" = "NVDA"%string
  /\ (is_Some ((∅ : store) !! "NVDA"%string)
      \/ exists c, In c calls /\ "NVDA"%string = upper (fst c)).
Proof.
  intros calls. apply (session_keys_upper calls ∅).
  - intros k Hk. rewrite lookup_empty in Hk. now destruct Hk.
  - vm_compute. eauto.
Defined.

End SessionSpec.

(* ===================================================================== *)
(** * Live portfolio table: properties *)
(* ===================================================================== *)

Module PortfolioSpec.
Import PyNum PyNumFacts Portfolio.
Local Open Scope Q_scope.

Section Fetch.

Variable fetch : quotes.

Lemma loop_body_step (records : list holding) (total : Q) (pos : position) :
  loop_body fetch (records, total) pos
  = match fetch (pos_ticker pos) with
    | FetchRaises => (records, total)
    | RowRaises price => (records, total + price * shares pos)
    | Quoted stock =>
        (records ++ [holding_of pos stock], total + lastPrice stock * shares pos)
    end.
Proof. reflexivity. Qed.

Lemma fold_loop_body (positions : list position) (records : list holding) (total : Q) :
  fst (fold_left (loop_body fetch) positions (records, total))
  = records ++ rows_of fetch positions
  /\ snd (fold_left (loop_body fetch) positions (records, total))
     == total + Qsum (List.map (market_value fetch) positions).
Proof.
  revert records total.
  induction positions as [| pos positions IH]; intros records total.
  - cbn. split; [now rewrite app_nil_r | ring].
  - unfold rows_of. cbn [fold_left flat_map List.map Qsum fold_right].
    fold (rows_of fetch positions). rewrite loop_body_step.
    unfold market_value at 1.
    destruct (fetch (pos_ticker pos)) as [| stock | price].
    + destruct (IH records total) as [H1 H2]. split; [exact H1 |].
      rewrite H2. unfold Qsum. ring.
    + destruct (IH (records ++ [holding_of pos stock])
                   (total + lastPrice stock * shares pos)) as [H1 H2].
      split.
      * rewrite H1. now rewrite <- app_assoc.
      * rewrite H2. unfold Qsum. ring.
    + destruct (IH records (total + price * shares pos)) as [H1 H2].
      split; [exact H1 |]. rewrite H2. unfold Qsum. ring.
Qed.

Lemma rows_of_tickers (positions : list position) :
  List.map Ticker (rows_of fetch positions)
  = List.map pos_ticker (fetched positions fetch).
Proof.
  unfold fetched, rows_of. induction positions as [| pos positions IH]; [reflexivity |].
  cbn [flat_map List.filter]. destruct (fetch (pos_ticker pos)) as [| stock | price].
  - exact IH.
  - cbn [app List.map]. now rewrite IH.
  - exact IH.
Qed.

Lemma rows_of_origin (positions : list position) (r : holding) :
  In r (rows_of fetch positions) ->
  exists pos stock, row_of_position positions fetch r pos stock.
Proof.
  intros Hin. unfold rows_of in Hin. apply in_flat_map in Hin as (pos & Hpos & Hr).
  destruct (fetch (pos_ticker pos)) as [| stock | price] eqn:E; try easy.
  destruct Hr as [<- | []]. exists pos, stock. now repeat split.
Qed.

Lemma fetched_tickers_sublist (positions : list position) :
  List.map pos_ticker (fetched positions fetch)
  `sublist_of` List.map pos_ticker positions.
Proof.
  unfold fetched. induction positions as [| pos positions IH]; [constructor |].
  cbn [List.filter List.map]. destruct (fetch (pos_ticker pos)).
  - now apply sublist_cons.
  - cbn [List.map]. now apply sublist_skip.
  - now apply sublist_cons.
Qed.

Lemma rows_of_values_near (positions : list position) :
  Qabs (Qsum (List.map Value (rows_of fetch positions))
        + Qsum (List.map (dropped_value fetch) positions)
        - Qsum (List.map (market_value fetch) positions))
  <= inject_Z (Z.of_nat (length (rows_of fetch positions))) * (1 # 200).
Proof.
  apply Qabs_Qle_condition.
  induction positions as [| pos positions IH]; [vm_compute; split; discriminate |].
  unfold rows_of in *. cbn [flat_map List.map].
  change (Qsum (List.map (dropped_value fetch) positions)) with
    (fold_right Qplus 0 (List.map (dropped_value fetch) positions)) in IH.
  change (Qsum (List.map (market_value fetch) positions)) with
    (fold_right Qplus 0 (List.map (market_value fetch) positions)) in IH.
  unfold Qsum in *. cbn [fold_right].
  unfold market_value at 1 3. unfold dropped_value at 1 3.
  destruct (fetch (pos_ticker pos)) as [| stock | price].
  - cbn [app]. lra.
  - cbn [app List.map length fold_right].
    rewrite Nat2Z.inj_succ, <- Z.add_1_r, inject_Z_plus. change (inject_Z 1) with 1.
    cbn [Value holding_of].
    pose proof (round2_near (lastPrice stock * shares pos)) as Hr.
    apply Qabs_Qle_condition in Hr. lra.
  - cbn [app]. lra.
Qed.

Lemma dropped_none (positions : list position) :
  no_row_raises positions fetch ->
  Qsum (List.map (dropped_value fetch) positions) == 0.
Proof.
  intros Hno. induction positions as [| pos positions IH]; [reflexivity |].
  cbn [List.map Qsum fold_right]. fold (Qsum (List.map (dropped_value fetch) positions)).
  rewrite IH by (intros pos' price Hin; apply Hno; now right).
  unfold dropped_value. destruct (fetch (pos_ticker pos)) as [| stock | price] eqn:E;
    try ring.
  exfalso. apply (Hno pos price); [now left | exact E].
Qed.

End Fetch.

Lemma table_rows (positions : list position) (fetch : quotes) :
  fst (get_portfolio_data_of positions fetch) = rows_of fetch positions.
Proof.
  unfold get_portfolio_data_of.
  now destruct (fold_loop_body fetch positions [] 0) as [-> _].
Qed.

Lemma table_total (positions : list position) (fetch : quotes) :
  snd (get_portfolio_data_of positions fetch)
  == Qsum (List.map (market_value fetch) positions).
Proof.
  unfold get_portfolio_data_of.
  destruct (fold_loop_body fetch positions [] 0) as [_ Htot]. rewrite Htot.
  apply Qplus_0_l.
Qed.

Lemma table_rows_origin (positions : list position) (fetch : quotes) :
  Forall (fun r => exists pos stock, row_of_position positions fetch r pos stock)
    (fst (get_portfolio_data_of positions fetch)).
Proof.
  rewrite table_rows. apply Forall_forall. intros r Hr.
  apply list_elem_of_In in Hr. now apply rows_of_origin.
Qed.

Lemma round2_zero : round2 0 == 0.
Proof. reflexivity. Qed.

Lemma round2_nonneg (q : Q) : 0 <= q -> 0 <= round2 q.
Proof. intros H. rewrite <- round2_zero. now apply round2_mono. Qed.

Lemma round2_nonpos (q : Q) : q <= 0 -> round2 q <= 0.
Proof. intros H. rewrite <- round2_zero. now apply round2_mono. Qed.

(** X19.  The table has one row per position whose guarded block runs to
    its end, in the order of the positions: the row tickers are a sublist
    of the configured tickers and every row is the row of such a position.
    A position whose block raises gets no row.  When every block raises
    before the price is read, the table is empty and the total is 0; when
    every block raises at all, the table is empty. *)
Theorem portfolio_rows_follow_positions (positions : list position) (fetch : quotes) :
  let rows := fst (get_portfolio_data_of positions fetch) in
  List.map Ticker rows = List.map pos_ticker (fetched positions fetch)
  /\ List.map Ticker rows `sublist_of` List.map pos_ticker positions
  /\ Forall (fun r => exists pos stock, row_of_position positions fetch r pos stock) rows
  /\ ((forall pos, In pos positions -> fetch (pos_ticker pos) = FetchRaises) ->
      get_portfolio_data_of positions fetch = ([], 0))
  /\ ((forall pos stock, In pos positions -> fetch (pos_ticker pos) <> Quoted stock) ->
      rows = []).
Proof.
  intros rows. unfold rows. split; [| split; [| split; [| split]]].
  - rewrite table_rows. apply rows_of_tickers.
  - rewrite table_rows, rows_of_tickers. apply fetched_tickers_sublist.
  - apply table_rows_origin.
  - unfold get_portfolio_data_of. intros Hnone. clear rows.
    assert (H : forall st, fold_left (loop_body fetch) positions st = st);
      [| apply H].
    induction positions as [| pos positions IH]; intros [records total];
      [reflexivity |].
    cbn [fold_left]. rewrite loop_body_step, (Hnone pos) by now left.
    apply IH. intros pos' Hin. apply Hnone. now right.
  - intros Hnone. rewrite table_rows. clear rows. unfold rows_of.
    induction positions as [| pos positions IH]; [reflexivity |].
    cbn [flat_map]. rewrite IH by (intros pos' stock Hin; apply Hnone; now right).
    destruct (fetch (pos_ticker pos)) as [| stock | price] eqn:E; try reflexivity.
    exfalso. apply (Hnone pos stock); [now left | exact E].
Qed.

Lemma portfolio_rows_follow_positions_witness :
  get_portfolio_data_of portfolio (fun _ => FetchRaises) = ([], 0)
  /\ fst (get_portfolio_data_of portfolio (fun _ => RowRaises 150)) = [].
Proof.
  destruct (portfolio_rows_follow_positions portfolio (fun _ => FetchRaises))
    as (_ & _ & _ & Hfetch & _).
  destruct (portfolio_rows_follow_positions portfolio (fun _ => RowRaises 150))
    as (_ & _ & _ & _ & Hrow).
  split; [apply Hfetch; reflexivity | apply Hrow; discriminate].
Defined.

(** X20.  The returned total is the sum of last price times shares,
    computed without rounding, over the positions whose price was read.  A
    position whose block raises before that adds nothing; a position whose
    block raises later, while its row is built, has no row but stays in
    the total. *)
Theorem portfolio_total_value (positions : list position) (fetch : quotes) :
  let rows := fst (get_portfolio_data_of positions fetch) in
  let total := snd (get_portfolio_data_of positions fetch) in
  total == Qsum (List.map (market_value fetch) positions)
  /\ (forall pos, fetch (pos_ticker pos) = FetchRaises -> market_value fetch pos = 0)
  /\ (forall pos price,
        fetch (pos_ticker pos) = RowRaises price ->
        market_value fetch pos = price * shares pos
        /\ ~ In (pos_ticker pos) (List.map Ticker rows))
  /\ (forall pos stock,
        fetch (pos_ticker pos) = Quoted stock ->
        market_value fetch pos = lastPrice stock * shares pos).
Proof.
  intros rows total. unfold rows, total.
  split; [apply table_total |]. split; [| split].
  - intros pos E. unfold market_value. now rewrite E.
  - intros pos price E. split; [unfold market_value; now rewrite E |].
    rewrite table_rows, rows_of_tickers. unfold fetched. intros Hin.
    apply List.in_map_iff in Hin as (pos' & Ht & Hin).
    apply List.filter_In in Hin as [_ Hq]. rewrite Ht, E in Hq. discriminate.
  - intros pos stock E. unfold market_value. now rewrite E.
Qed.

Lemma portfolio_total_value_witness :
  market_value (fun _ => RowRaises 150)
    {| pos_ticker := "NVDA"; shares := 100.012; cost_basis := 113.46 |}
  = 150 * 100.012
  /\ snd (get_portfolio_data_of
            [ {| pos_ticker := "NVDA"; shares := 100.012; cost_basis := 113.46 |} ]
            (fun _ => RowRaises 150)) == 15001.8
  /\ fst (get_portfolio_data_of
            [ {| pos_ticker := "NVDA"; shares := 100.012; cost_basis := 113.46 |} ]
            (fun _ => RowRaises 150)) = [].
Proof.
  destruct (portfolio_total_value
              [ {| pos_ticker := "NVDA"; shares := 100.012; cost_basis := 113.46 |} ]
              (fun _ => RowRaises 150)) as (_ & _ & Hrow & _).
  destruct (Hrow {| pos_ticker := "NVDA"; shares := 100.012; cost_basis := 113.46 |}
              150 eq_refl) as [Hvalue _].
  split; [exact Hvalue |]. split; reflexivity.
Defined.

(** X21.  For a position with a non-negative number of shares the row
    shows a non-negative gain when the price is at least the cost basis
    and a non-positive one when it is at most the cost basis; its value is
    non-negative for a non-negative price. *)
Theorem gain_loss_sign (positions : list position) (fetch : quotes) :
  Forall (fun pos => 0 <= shares pos) positions ->
  Forall (fun r =>
            exists pos stock,
              row_of_position positions fetch r pos stock
              /\ (cost_basis pos <= lastPrice stock -> 0 <= Gain_Loss r)
              /\ (lastPrice stock <= cost_basis pos -> Gain_Loss r <= 0)
              /\ (0 <= lastPrice stock -> 0 <= Value r))
    (fst (get_portfolio_data_of positions fetch)).
Proof.
  intros Hshares.
  eapply Forall_impl; [apply table_rows_origin |]. cbn beta.
  intros r (pos & stock & Hrow). exists pos, stock. split; [exact Hrow |].
  destruct Hrow as (Hin & _ & ->).
  rewrite Forall_forall in Hshares. apply list_elem_of_In in Hin.
  specialize (Hshares pos Hin). cbn [Gain_Loss Value holding_of].
  split; [| split]; intros H.
  - apply round2_nonneg. apply Qmult_le_0_compat; lra.
  - apply round2_nonpos.
    assert (H0 : 0 <= (cost_basis pos - lastPrice stock) * shares pos)
      by (apply Qmult_le_0_compat; lra).
    lra.
  - apply round2_nonneg. now apply Qmult_le_0_compat.
Qed.

Lemma gain_loss_sign_witness :
  Forall (fun r =>
            exists pos stock,
              row_of_position portfolio
                (fun _ => Quoted {| lastPrice := 150; targetMeanPrice := Some 180;
                                  forwardPE := None |}) r pos stock
              /\ (cost_basis pos <= lastPrice stock -> 0 <= Gain_Loss r)
              /\ (lastPrice stock <= cost_basis pos -> Gain_Loss r <= 0)
              /\ (0 <= lastPrice stock -> 0 <= Value r))
    (fst (get_portfolio_data_of portfolio
            (fun _ => Quoted {| lastPrice := 150; targetMeanPrice := Some 180;
                              forwardPE := None |}))).
Proof.
  apply (gain_loss_sign portfolio). unfold portfolio.
  repeat (apply Forall_cons; split); try (now apply Forall_nil); vm_compute; discriminate.
Defined.

(** X22.  A row's Target Price and Forward P/E cells read 'N/A' exactly
    when the quote has no such figure or the figure is zero; otherwise
    they show the figure rounded to two decimals. *)
Theorem na_cells (positions : list position) (fetch : quotes) :
  Forall (fun r =>
            exists pos stock,
              row_of_position positions fetch r pos stock
              /\ (Target_Price r = NA <->
                    targetMeanPrice stock = None
                    \/ exists v, targetMeanPrice stock = Some v /\ v == 0)
              /\ (forall v, targetMeanPrice stock = Some v -> ~ v == 0 ->
                    Target_Price r = Num (round2 v))
              /\ (Forward_PE r = NA <->
                    forwardPE stock = None
                    \/ exists v, forwardPE stock = Some v /\ v == 0)
              /\ (forall v, forwardPE stock = Some v -> ~ v == 0 ->
                    Forward_PE r = Num (round2 v)))
    (fst (get_portfolio_data_of positions fetch)).
Proof.
  assert (Hcell : forall x : option Q,
            (round2_or_na x = NA <-> x = None \/ exists v, x = Some v /\ v == 0)
            /\ (forall v, x = Some v -> ~ v == 0 -> round2_or_na x = Num (round2 v))).
  { intros [v |]; cbn.
    - destruct (Qeq_bool v 0) eqn:E.
      + apply Qeq_bool_iff in E. split.
        * split; [intros _; right; eauto | reflexivity].
        * intros v' [= <-] Hv. now destruct Hv.
      + split.
        * split; [discriminate |]. intros [H | (v' & [= <-] & Hv)]; [discriminate |].
          apply Qeq_bool_iff in Hv. congruence.
        * now intros v' [= <-] _.
    - split; [split; [now left | reflexivity] | discriminate]. }
  eapply Forall_impl; [apply table_rows_origin |]. cbn beta.
  intros r (pos & stock & Hrow). exists pos, stock. split; [exact Hrow |].
  destruct Hrow as (_ & _ & ->). cbn [Target_Price Forward_PE holding_of].
  destruct (Hcell (targetMeanPrice stock)) as [Ht1 Ht2].
  destruct (Hcell (forwardPE stock)) as [Hp1 Hp2]. auto.
Qed.

(** X23.  The values shown in the table are rounded, the total is not, and
    a position whose row is lost after its price was read stays in the
    total: the sum of the shown values plus the values of those positions
    differs from the returned total by at most half a cent per row.  When
    no row is lost that way, the sum of the shown values alone is within
    half a cent per row of the total. *)
Theorem shown_values_near_total (positions : list position) (fetch : quotes) :
  let rows := fst (get_portfolio_data_of positions fetch) in
  let total := snd (get_portfolio_data_of positions fetch) in
  let dropped := Qsum (List.map (dropped_value fetch) positions) in
  Qabs (Qsum (List.map Value rows) + dropped - total)
  <= inject_Z (Z.of_nat (length rows)) * (1 # 200)
  /\ (no_row_raises positions fetch ->
      Qabs (Qsum (List.map Value rows) - total)
      <= inject_Z (Z.of_nat (length rows)) * (1 # 200)).
Proof.
  intros rows total dropped. unfold rows, total, dropped.
  assert (Hnear := rows_of_values_near fetch positions).
  rewrite table_total, table_rows. split; [exact Hnear |].
  intros Hno. rewrite (dropped_none fetch positions Hno) in Hnear.
  apply Qabs_Qle_condition in Hnear. apply Qabs_Qle_condition. lra.
Qed.

Lemma shown_values_near_total_witness :
  Qabs (Qsum (List.map Value
                (fst (get_portfolio_data_of portfolio
                        (fun _ => Quoted {| lastPrice := 150.125;
                                            targetMeanPrice := None;
                                            forwardPE := None |}))))
        - snd (get_portfolio_data_of portfolio
                 (fun _ => Quoted {| lastPrice := 150.125;
                                     targetMeanPrice := None;
                                     forwardPE := None |})))
  <= inject_Z (Z.of_nat (length
       (fst (get_portfolio_data_of portfolio
               (fun _ => Quoted {| lastPrice := 150.125;
                                   targetMeanPrice := None;
                                   forwardPE := None |}))))) * (1 # 200).
Proof.
  apply (shown_values_near_total portfolio
           (fun _ => Quoted {| lastPrice := 150.125; targetMeanPrice := None;
                               forwardPE := None |})).
  intros pos price _. discriminate.
Defined.

Lemma static_tickers_distinct : NoDup (List.map pos_ticker portfolio).
Proof. apply (bool_decide_unpack _). vm_compute. reflexivity. Qed.

Lemma static_figures_exact :
  Forall (fun pos => round4 (shares pos) == shares pos
                     /\ round2 (cost_basis pos) == cost_basis pos) portfolio.
Proof. unfold portfolio. repeat (apply Forall_cons; split); try (now apply Forall_nil);
  try split; reflexivity. Qed.

(** X24.  Whatever the quotes are, the table built from the static
    portfolio has at most nine rows, no ticker twice, and each row shows
    the configured shares and cost basis unchanged: rounding to four and
    two decimals leaves the configured figures as they are. *)
Theorem static_portfolio_table (fetch : quotes) :
  let rows := fst (get_portfolio_data fetch) in
  (length rows <= 9)%nat
  /\ NoDup (List.map Ticker rows)
  /\ Forall (fun r =>
               exists pos stock,
                 row_of_position portfolio fetch r pos stock
                 /\ Shares r == shares pos
                 /\ Cost_Basis r == cost_basis pos) rows.
Proof.
  intros rows. unfold rows, get_portfolio_data.
  assert (Hsub : List.map Ticker (fst (get_portfolio_data_of portfolio fetch))
                 `sublist_of` List.map pos_ticker portfolio).
  { rewrite table_rows, rows_of_tickers. apply fetched_tickers_sublist. }
  split; [| split].
  - apply sublist_length in Hsub. now rewrite !List.length_map in Hsub.
  - eapply sublist_NoDup; [apply static_tickers_distinct | exact Hsub].
  - eapply Forall_impl; [apply table_rows_origin |]. cbn beta.
    intros r (pos & stock & Hrow). exists pos, stock. split; [exact Hrow |].
    destruct Hrow as (Hin & _ & ->). cbn [Shares Cost_Basis holding_of].
    pose proof static_figures_exact as Hexact. rewrite Forall_forall in Hexact.
    apply Hexact. now apply list_elem_of_In.
Qed.

End PortfolioSpec.
